(** * AnalysisBase: the shared persistence and reporting operations

    A shallow embedding of
    [interestingness_xrl/explainability/analysis/__init__.py].

    The Python class [AnalysisBase] is an abstract base class: it declares
    eight abstract methods and implements four concrete ones
    ([save_report], [save_visual_report], [save_json], [load_json]) on top of
    them.  The concrete methods are effectful (they touch the file system,
    the instance's own attributes and the module-level configuration of
    [jsonpickle]) and they may raise, so they are embedded in a state and
    exception monad over an explicit model of that environment. *)

From stdpp Require Import gmap strings list fin_maps.
From Stdlib Require Import ZArith QArith.

Set Warnings "-register-all".
Set Default Proof Using "Type".

Close Scope Q_scope.
Open Scope string_scope.

(** ** Python values and exceptions *)

(** The values the collaborators (agent, helper, configuration) are made
    of.  An object carries its class name and its attribute dictionary. *)
Inductive value :=
| VNone
| VBool (b : bool)
| VInt (z : Z)
| VStr (s : string)
| VObj (cls : string) (attrs : list (string * value)).

(** The exceptions that the modelled operations raise.  [Exception] stands
    for anything a collaborator may raise on its own. *)
Inductive exn :=
| FileNotFoundError
| FileExistsError
| IsADirectoryError
| NotADirectoryError
| OSError (errno : string)
| UnsupportedOperation
| ValueError
| AttributeError (name : string)
| AssertionError (about : string)
| TypeError
| Exception (msg : string).

(** Subclasses of Python's [OSError]. *)
Definition is_os_error (e : exn) : bool :=
  match e with
  | FileNotFoundError | FileExistsError | IsADirectoryError
  | NotADirectoryError | OSError _ => true
  | _ => false
  end.

Inductive result (A : Type) :=
| Ok (a : A)
| Raise (e : exn).
Arguments Ok {A} a.
Arguments Raise {A} e.

Definition is_ok {A} (r : result A) : bool :=
  match r with Ok _ => true | Raise _ => false end.

(** [obj.name]: attribute access raises [AttributeError] on [None] and on
    an object that lacks the attribute. *)
Fixpoint assoc (name : string) (attrs : list (string * value)) : option value :=
  match attrs with
  | [] => None
  | (k, v) :: rest => if String.eqb k name then Some v else assoc name rest
  end.

Definition getattr (v : value) (name : string) : result value :=
  match v with
  | VObj _ attrs =>
      match assoc name attrs with
      | Some x => Ok x
      | None => Raise (AttributeError name)
      end
  | _ => Raise (AttributeError name)
  end.

(** ** The state and exception monad *)

Definition SE (S A : Type) : Type := S -> result A * S.

Definition ret {S A} (a : A) : SE S A := fun s => (Ok a, s).

Definition raise {S A} (e : exn) : SE S A := fun s => (Raise e, s).

Definition bind {S A B} (m : SE S A) (k : A -> SE S B) : SE S B :=
  fun s =>
    match m s with
    | (Ok a, s') => k a s'
    | (Raise e, s') => (Raise e, s')
    end.

Declare Scope se_scope.
Delimit Scope se_scope with se.
Notation "'let*' x ':=' m 'in' k" := (bind m (fun x => k))
  (at level 10, x name, m at level 100, k at level 200) : se_scope.
Notation "m ';;' k" := (bind m (fun _ => k))
  (at level 100, k at level 200, right associativity) : se_scope.

Definition gets {S A} (f : S -> A) : SE S A := fun s => (Ok (f s), s).
Definition modify {S} (f : S -> S) : SE S unit := fun s => (Ok tt, f s).
Definition of_result {S A} (r : result A) : SE S A := fun s => (r, s).

(** ** The file system *)

(** A path is the list of its components below the root; [[]] is the root
    directory itself. *)
Definition path := list string.

Inductive node :=
| File (content : string)
| Dir (entries : gmap string node).

Fixpoint lookup_path (n : node) (p : path) : option node :=
  match p with
  | [] => Some n
  | x :: p' =>
      match n with
      | Dir e =>
          match e !! x with
          | Some c => lookup_path c p'
          | None => None
          end
      | File _ => None
      end
  end.

(** Rewrites the entry named by the non-empty path [x :: rest].  [f]
    receives what is there ([None] when nothing is) and answers what to
    leave there ([None] removes the entry).  A missing intermediate
    directory is [FileNotFoundError], a file in its place
    [NotADirectoryError]. *)
Fixpoint update_entry (f : option node -> result (option node))
    (x : string) (rest : path) (n : node) : result node :=
  match n with
  | File _ => Raise NotADirectoryError
  | Dir e =>
      match rest with
      | [] =>
          match f (e !! x) with
          | Ok (Some c) => Ok (Dir (<[x := c]> e))
          | Ok None => Ok (Dir (delete x e))
          | Raise err => Raise err
          end
      | y :: rest' =>
          match e !! x with
          | None => Raise FileNotFoundError
          | Some c =>
              match update_entry f y rest' c with
              | Ok c' => Ok (Dir (<[x := c']> e))
              | Raise err => Raise err
              end
          end
      end
  end.

(** [os.makedirs(p)] with [exist_ok=False]: creates the leaf and every
    missing ancestor; the leaf must not exist. *)
Fixpoint makedirs_entry (x : string) (rest : path) (n : node) : result node :=
  match n with
  | File _ => Raise NotADirectoryError
  | Dir e =>
      match rest with
      | [] =>
          match e !! x with
          | Some _ => Raise FileExistsError
          | None => Ok (Dir (<[x := Dir ∅]> e))
          end
      | y :: rest' =>
          match makedirs_entry y rest' (default (Dir ∅) (e !! x)) with
          | Ok c' => Ok (Dir (<[x := c']> e))
          | Raise err => Raise err
          end
      end
  end.

Definition fs_makedirs (p : path) (root : node) : result node :=
  match p with
  | [] => Raise FileExistsError
  | x :: rest => makedirs_entry x rest root
  end.

(** [shutil.rmtree(p)]: removes the directory [p] with everything below
    it.  It refuses a regular file and a missing path. *)
Definition rmtree_at (o : option node) : result (option node) :=
  match o with
  | Some (Dir _) => Ok None
  | Some (File _) => Raise NotADirectoryError
  | None => Raise FileNotFoundError
  end.

(** Opening for writing creates the file or truncates it; a directory
    cannot be opened. *)
Definition truncate_at (o : option node) : result (option node) :=
  match o with
  | Some (Dir _) => Raise IsADirectoryError
  | _ => Ok (Some (File EmptyString))
  end.

(** Appending [s] to the regular file that is there. *)
Definition append_at (s : string) (o : option node) : result (option node) :=
  match o with
  | Some (File c) => Ok (Some (File (c ++ s)))
  | Some (Dir _) => Raise IsADirectoryError
  | None => Raise FileNotFoundError
  end.

Definition is_file (o : option node) : bool :=
  match o with
  | Some (File _) => true
  | _ => false
  end.

(** Why a path does not resolve: a component is missing, or a regular
    file stands where a directory is needed. *)
Fixpoint lookup_error (n : node) (p : path) : exn :=
  match p with
  | [] => FileNotFoundError
  | x :: p' =>
      match n with
      | File _ => NotADirectoryError
      | Dir e =>
          match e !! x with
          | Some c => lookup_error c p'
          | None => FileNotFoundError
          end
      end
  end.

Definition file_size (o : option node) : nat :=
  match o with
  | Some (File c) => String.length c
  | _ => 0
  end.

(** ** The process environment *)

Inductive mode := ModeR | ModeW.

(** An open file object: where it points, how it was opened and the read
    position. *)
Record file_object := {
  f_path : path;
  f_mode : mode;
  f_pos : nat
}.

(** Module-level state of [jsonpickle]: the backend names in order of
    preference and the keyword options registered for each backend's
    encoder. *)
Record jsonpickle_state := {
  backend_names : list string;
  encoder_options : gmap string (gmap string value)
}.

(** What the operations act on besides the instance: the file system
    with the room left on the device, the table of open file objects, the
    serializer's configuration and the console. *)
Record world := {
  fs : node;
  free : nat;
  open_files : gmap nat file_object;
  jsonpickle : jsonpickle_state;
  stdout : list string
}.

Definition set_fs (n : node) (w : world) : world :=
  {| fs := n; free := free w; open_files := open_files w;
     jsonpickle := jsonpickle w; stdout := stdout w |}.

Definition set_free (k : nat) (w : world) : world :=
  {| fs := fs w; free := k; open_files := open_files w;
     jsonpickle := jsonpickle w; stdout := stdout w |}.

Definition set_open_files (t : gmap nat file_object) (w : world) : world :=
  {| fs := fs w; free := free w; open_files := t;
     jsonpickle := jsonpickle w; stdout := stdout w |}.

Definition set_jsonpickle (j : jsonpickle_state) (w : world) : world :=
  {| fs := fs w; free := free w; open_files := open_files w;
     jsonpickle := j; stdout := stdout w |}.

(** *** [os] and [shutil] *)

Definition path_exists (p : path) : SE world bool :=
  gets (fun w => bool_decide (is_Some (lookup_path (fs w) p))).

Definition makedirs (p : path) : SE world unit :=
  fun w =>
    match fs_makedirs p (fs w) with
    | Ok n => (Ok tt, set_fs n w)
    | Raise e => (Raise e, w)
    end.

(** Removing the root empties it and then fails on the root itself. *)
Definition rmtree (p : path) : SE world unit :=
  fun w =>
    match p with
    | [] =>
        match fs w with
        | Dir _ => (Raise (OSError "EBUSY"), set_fs (Dir ∅) w)
        | File _ => (Raise NotADirectoryError, w)
        end
    | x :: rest =>
        match update_entry rmtree_at x rest (fs w) with
        | Ok n => (Ok tt, set_fs n w)
        | Raise e => (Raise e, w)
        end
    end.

(** *** File objects

    Writes go straight to the file, so [close] has nothing left to flush
    and cannot fail. *)

(** A descriptor above all those in use. *)
Definition fresh_fd (t : gmap nat file_object) : nat :=
  S (map_fold (fun k _ acc => Nat.max k acc) 0 t).

(** [open(p, 'w')] and [open(p)]. *)
Definition open (p : path) (m : mode) : SE world nat :=
  fun w =>
    let fd := fresh_fd (open_files w) in
    let handle := {| f_path := p; f_mode := m; f_pos := 0 |} in
    match m with
    | ModeW =>
        match p with
        | [] => (Raise IsADirectoryError, w)
        | x :: rest =>
            match update_entry truncate_at x rest (fs w) with
            | Ok n =>
                (Ok fd,
                 set_open_files (<[fd := handle]> (open_files w))
                   (set_free (free w + file_size (lookup_path (fs w) p))
                      (set_fs n w)))
            | Raise e => (Raise e, w)
            end
        end
    | ModeR =>
        match lookup_path (fs w) p with
        | Some (File _) =>
            (Ok fd, set_open_files (<[fd := handle]> (open_files w)) w)
        | Some (Dir _) => (Raise IsADirectoryError, w)
        | None => (Raise (lookup_error (fs w) p), w)
        end
    end.

(** [file.write(s)]: needs an open file object in write mode and enough
    free space; the text goes to the end of the file.  Text written to a
    file that has been unlinked in the meantime is lost. *)
Definition write (fd : nat) (s : string) : SE world unit :=
  fun w =>
    match open_files w !! fd with
    | None => (Raise ValueError, w)
    | Some {| f_path := p; f_mode := ModeR |} => (Raise UnsupportedOperation, w)
    | Some {| f_path := p; f_mode := ModeW |} =>
        if decide (String.length s <= free w) then
          match p with
          | x :: rest =>
              if is_file (lookup_path (fs w) p) then
                match update_entry (append_at s) x rest (fs w) with
                | Ok n =>
                    (Ok tt, set_free (free w - String.length s) (set_fs n w))
                | Raise e => (Raise e, w)
                end
              else (Ok tt, w)
          | [] => (Ok tt, w)
          end
        else (Raise (OSError "ENOSPC"), w)
    end.

(** [file.read()]: the text from the read position to the end. *)
Definition read (fd : nat) : SE world string :=
  fun w =>
    match open_files w !! fd with
    | None => (Raise ValueError, w)
    | Some {| f_path := p; f_mode := ModeW |} => (Raise UnsupportedOperation, w)
    | Some {| f_path := p; f_mode := ModeR; f_pos := pos |} =>
        match lookup_path (fs w) p with
        | Some (File c) =>
            (Ok (String.substring pos (String.length c - pos) c),
             set_open_files
               (<[fd := {| f_path := p; f_mode := ModeR;
                           f_pos := Nat.max pos (String.length c) |}]>
                  (open_files w)) w)
        | _ => (Ok EmptyString, w)
        end
    end.

(** [file.close()]: closing twice is harmless. *)
Definition close (fd : nat) : SE world unit :=
  modify (fun w => set_open_files (delete fd (open_files w)) w).

(** *** [jsonpickle]'s configuration *)

(** [name in self._backend_names] *)
Definition loaded (name : string) (j : jsonpickle_state) : bool :=
  existsb (String.eqb name) (backend_names j).

(** [list.remove(name)]: the first occurrence goes. *)
Fixpoint remove_first (name : string) (l : list string) : list string :=
  match l with
  | [] => []
  | b :: rest =>
      if String.eqb b name then rest else b :: remove_first name rest
  end.

(** [set_preferred_backend(name)] moves a loaded backend to the front of
    the list; for a backend that is not loaded it raises
    [AssertionError] and changes nothing. *)
Definition set_preferred_backend (name : string) : SE world unit :=
  fun w =>
    if loaded name (jsonpickle w) then
      (Ok tt,
       set_jsonpickle
         {| backend_names :=
              name :: remove_first name (backend_names (jsonpickle w));
            encoder_options := encoder_options (jsonpickle w) |} w)
    else (Raise (AssertionError name), w).

Definition set_encoder_options (name : string) (kwargs : gmap string value)
    : SE world unit :=
  modify (fun w =>
    set_jsonpickle
      {| backend_names := backend_names (jsonpickle w);
         encoder_options := <[name := kwargs]> (encoder_options (jsonpickle w)) |}
      w).

(** ** Analysis instances *)

(** A Python [float]: a number, an infinity or a NaN.  A NaN equals
    nothing, itself included, so which float object it is matters where
    Python tests [x is y or x == y]; the object is kept for NaN only. *)
Inductive pyfloat :=
| Finite (q : Q)
| Infinite (negative : bool)
| NaN (object : nat).

(** A sample is one recorded transition [(s, a, r, ns)]. *)
Record sample := {
  s_state : Z;
  s_action : Z;
  s_reward : pyfloat;
  s_next : Z
}.

(** The instance dictionary of an analysis object.  [__init__] binds
    [helper], [config] and [agent].  The base class keeps nothing else;
    what a concrete class adds is [findings], modelled from the spec: for
    each interestingness element, by name, the samples that belong to
    it. *)
Record analysis := {
  py_class : string;
  agent : value;
  helper : value;
  config : value;
  findings : list (string * list sample)
}.

(** What the body of a method can reach: the instance it is bound to and
    the environment. *)
Record frame := {
  self : analysis;
  env : world
}.

(** The abstract methods a concrete class has to supply.  [difference_to],
    the three queries and [analyze] are not called by the code of the base
    class itself. *)
Class AnalysisBase := {
  analyze : SE frame unit;
  difference_to : analysis -> SE frame analysis;
  _save_report : nat -> bool -> SE frame unit;
  _save_visual_report : path -> SE frame unit;
  get_sample_interesting_aspects :
    Z -> Z -> pyfloat -> Z -> SE frame (list string);
  get_interestingness_names : SE frame (list string);
  get_stats : SE frame (list (string * value));
  _after_loaded_json : SE frame unit
}.

(** Calls of abstract methods made by the base class are recorded, in
    order; the record is out of the reach of the methods themselves. *)
Inductive call :=
| Call_save_report (file : nat) (write_console : bool)
| Call_save_visual_report (p : path)
| Call_after_loaded_json.

(** The state a static method runs in, and the state a bound method runs
    in. *)
Record process := {
  p_env : world;
  p_calls : list call
}.

Record bound := {
  b_self : analysis;
  b_proc : process
}.

(** Running an environment operation from either state. *)
Class Sys (S : Type) := {
  sys_get : S -> world;
  sys_put : world -> S -> S
}.

#[export] Instance process_sys : Sys process := {|
  sys_get := p_env;
  sys_put w s := {| p_env := w; p_calls := p_calls s |}
|}.

#[export] Instance bound_sys : Sys bound := {|
  sys_get s := p_env (b_proc s);
  sys_put w s :=
    {| b_self := b_self s;
       b_proc := {| p_env := w; p_calls := p_calls (b_proc s) |} |}
|}.

Definition io {S A} `{Sys S} (m : SE world A) : SE S A :=
  fun s => let '(r, w) := m (sys_get s) in (r, sys_put w s).

(** Calling an abstract method on the bound instance. *)
Definition invoke {A} (c : call) (m : SE frame A) : SE bound A :=
  fun s =>
    let '(r, fr) := m {| self := b_self s; env := p_env (b_proc s) |} in
    (r, {| b_self := self fr;
           b_proc := {| p_env := env fr;
                        p_calls := p_calls (b_proc s) ++ [c] |} |}).

(** Calling a bound method on an object from a static method; the object
    as the call leaves it is part of the outcome. *)
Definition on {A} (obj : analysis) (m : SE bound A) : SE process (A * analysis) :=
  fun s =>
    let '(r, b) := m {| b_self := obj; b_proc := s |} in
    (match r with
     | Ok a => Ok (a, b_self b)
     | Raise e => Raise e
     end, b_proc b).

(** [with opened as f: body]: when [opened] returns a file object the
    body runs and the file is closed however the body ends; what the body
    returns or raises is the outcome. *)
Definition with_ {S A} `{Sys S} (opened : SE S nat) (body : nat -> SE S A)
    : SE S A :=
  fun s =>
    match opened s with
    | (Ok f, s1) =>
        let '(r, s2) := body f s1 in
        (r, snd (io (close f) s2))
    | (Raise e, s1) => (Raise e, s1)
    end.

(** Attribute reads and writes on [self]. *)
Definition get_self {A} (f : analysis -> A) : SE bound A :=
  gets (fun s => f (b_self s)).

Definition set_self (f : analysis -> analysis) : SE bound unit :=
  modify (fun s => {| b_self := f (b_self s); b_proc := b_proc s |}).

Definition with_agent (v : value) (a : analysis) : analysis :=
  {| py_class := py_class a; agent := v; helper := helper a;
     config := config a; findings := findings a |}.

Definition with_helper (v : value) (a : analysis) : analysis :=
  {| py_class := py_class a; agent := agent a; helper := v;
     config := config a; findings := findings a |}.

Definition with_config (v : value) (a : analysis) : analysis :=
  {| py_class := py_class a; agent := agent a; helper := helper a;
     config := v; findings := findings a |}.

(** [jsonpickle.encode] and [jsonpickle.decode] are the library's; they
    read the module-level configuration.  A decoded text is an analysis
    object or some other Python value. *)
Inductive decoded :=
| Instance_ (a : analysis)
| Plain (v : value).

Section Analysis.

Variable encode : jsonpickle_state -> analysis -> result string.
Variable decode : jsonpickle_state -> string -> result decoded.

Context `{AnalysisBase}.

Open Scope se_scope.

(** [AnalysisBase.__init__(self, helper, agent)] *)
Definition __init__ (helper agent : value) : SE bound unit :=
  set_self (with_helper helper) ;;
  let* c := of_result (getattr helper "config") in
  set_self (with_config c) ;;
  set_self (with_agent agent).

(** [AnalysisBase.save_report(self, file_path, write_console=True)] *)
Definition save_report (file_path : path) (write_console : bool)
    : SE bound unit :=
  with_ (io (open file_path ModeW)) (fun file =>
    invoke (Call_save_report file write_console)
      (_save_report file write_console)).

(** [AnalysisBase.save_visual_report(self, path, clean=True)] *)
Definition save_visual_report (path : path) (clean : bool) : SE bound unit :=
  (let* found := io (path_exists path) in
   if negb found then
     io (makedirs path)
   else if clean then
     io (rmtree path) ;;
     io (makedirs path)
   else ret tt) ;;
  invoke (Call_save_visual_report path) (_save_visual_report path).

(** [AnalysisBase.save_json(self, json_file_path)] *)
Definition save_json (json_file_path : path) : SE bound unit :=
  let* agent := get_self agent in
  let* helper := get_self helper in
  set_self (with_agent VNone) ;;
  set_self (with_helper VNone) ;;
  set_self (with_config VNone) ;;
  io (set_preferred_backend "json") ;;
  io (set_encoder_options "json"
        (<["sort_keys" := VBool true]> (<["indent" := VInt 4]> ∅))) ;;
  with_ (io (open json_file_path ModeW)) (fun json_file =>
    let* json_str :=
      (fun s => (encode (jsonpickle (sys_get s)) (b_self s), s)) in
    io (write json_file json_str)) ;;
  set_self (with_agent agent) ;;
  set_self (with_helper helper) ;;
  let* c := of_result (getattr helper "config") in
  set_self (with_config c).

(** [AnalysisBase.load_json(json_file_path)], a static method.  Calling
    [_after_loaded_json] on a decoded value that is not an analysis
    object is an [AttributeError]. *)
Definition load_json (json_file_path : path) : SE process analysis :=
  with_ (io (open json_file_path ModeR)) (fun json_file =>
    let* text := io (read json_file) in
    let* obj := (fun s => (decode (jsonpickle (sys_get s)) text, s)) in
    match obj with
    | Instance_ analysis =>
        let* r := on analysis
                    (invoke Call_after_loaded_json _after_loaded_json) in
        ret (snd r)
    | Plain _ => raise (AttributeError "_after_loaded_json")
    end).

End Analysis.

(** ** Notions used to state the properties *)

(** The file system with the directory [p] replaced by an empty one. *)
Definition fs_emptied (p : path) (root : node) : result node :=
  match p with
  | [] => Raise (OSError "EBUSY")
  | x :: rest => update_entry (fun _ => Ok (Some (Dir ∅))) x rest root
  end.

(** The serializer's configuration once [json] is the preferred backend
    and its encoder has the options [sort_keys=True, indent=4]. *)
Definition json_options : gmap string value :=
  <["sort_keys" := VBool true]> (<["indent" := VInt 4]> ∅).

Definition json_configured (j : jsonpickle_state) : jsonpickle_state :=
  {| backend_names := "json" :: remove_first "json" (backend_names j);
     encoder_options := <["json" := json_options]> (encoder_options j) |}.

(** An instance with [agent], [helper] and [config] bound to [None]. *)
Definition without_collaborators (a : analysis) : analysis :=
  with_config VNone (with_helper VNone (with_agent VNone a)).

(** ** A concrete analysis kind

    The concrete analysis classes are not part of the file embedded above:
    there the queries, [difference_to], the report writers and the reload
    hook are declared and left abstract.  The kind below has them as the
    spec describes them. *)

#[export] Instance frame_sys : Sys frame := {|
  sys_get := env;
  sys_put w s := {| self := self s; env := w |}
|}.

(** [x is y or x == y] on floats, the test Python's containers apply to
    their items, tuples item by item: numbers by value, a NaN only with
    itself. *)
Definition float_is_or_eq (x y : pyfloat) : bool :=
  match x, y with
  | Finite p, Finite q => Qeq_bool p q
  | Infinite a, Infinite b => Bool.eqb a b
  | NaN i, NaN j => Nat.eqb i j
  | _, _ => false
  end.

(** Membership of a sample tuple in a container of sample tuples. *)
Definition sample_eqb (x y : sample) : bool :=
  Z.eqb (s_state x) (s_state y) && Z.eqb (s_action x) (s_action y)
  && float_is_or_eq (s_reward x) (s_reward y) && Z.eqb (s_next x) (s_next y).

Fixpoint samples_of (name : string) (els : list (string * list sample))
    : option (list sample) :=
  match els with
  | [] => None
  | (k, ss) :: rest =>
      if String.eqb k name then Some ss else samples_of name rest
  end.

(** Modelled from the spec: [get_interestingness_names] of a concrete
    analysis kind, abstract in the base class.  It is the sequence of the
    names of all the elements the analysis holds. *)
Definition interestingness_names (a : analysis) : list string :=
  map fst (findings a).

(** Modelled from the spec: [get_sample_interesting_aspects] of a concrete
    analysis kind, abstract in the base class.  It is the sequence of the
    names of the elements in which the sample takes part, empty when it
    belongs to none. *)
Definition sample_interesting_aspects (a : analysis) (smp : sample)
    : list string :=
  map fst
    (List.filter (fun el => existsb (sample_eqb smp) (snd el)) (findings a)).

(** Modelled from the spec: [get_stats] of a concrete analysis kind,
    abstract in the base class.  It maps statistic names to values, here
    the number of samples of each element. *)
Definition stats (a : analysis) : list (string * value) :=
  map (fun el => (fst el, VInt (Z.of_nat (length (snd el))))) (findings a).

(** Modelled from the spec: the set difference behind [difference_to],
    over the elements and their sample sets.  An element of [mine] stays
    when [theirs] lacks it or lacks some of its samples, with the samples
    [theirs] lacks. *)
Definition element_difference (mine theirs : list (string * list sample))
    : list (string * list sample) :=
  flat_map (fun el =>
    match samples_of (fst el) theirs with
    | None => [el]
    | Some ts =>
        match List.filter (fun x => negb (existsb (sample_eqb x) ts)) (snd el)
        with
        | [] => []
        | d => [(fst el, d)]
        end
    end) mine.

(** Modelled from the spec: [difference_to] of a concrete analysis kind,
    abstract in the base class with the body [pass].  Given an analysis of
    the same variant it returns a new instance holding the difference; with
    another variant it fails with a type error.  Neither instance is
    changed. *)
Definition variant_difference (mine other : analysis) : result analysis :=
  if String.eqb (py_class mine) (py_class other) then
    Ok {| py_class := py_class mine; agent := agent mine;
          helper := helper mine; config := config mine;
          findings := element_difference (findings mine) (findings other) |}
  else Raise TypeError.

(** Modelled from the spec: the text of [_save_report] of a concrete
    analysis kind, abstract in the base class: a readable rendering of the
    findings, here one line per element name. *)
Definition report_text (a : analysis) : string :=
  String.concat EmptyString
    (map (fun name => name ++ String (Ascii.ascii_of_nat 10) EmptyString)
         (interestingness_names a)).

Fixpoint for_each {S A} (xs : list A) (body : A -> SE S unit) : SE S unit :=
  match xs with
  | [] => ret tt
  | x :: rest => bind (body x) (fun _ => for_each rest body)
  end.

(** Modelled from the spec: a concrete analysis kind, which supplies the
    methods that are abstract in the base class.  [_save_report] writes the
    rendering to the open file and, on demand, to the console as well;
    [_save_visual_report] writes one image per element into the directory;
    [_after_loaded_json] has nothing to repair, the findings being plain
    data; [analyze] leaves the findings as they are given. *)
Definition elements_analysis : AnalysisBase := {|
  analyze := ret tt;
  difference_to other := fun fr => (variant_difference (self fr) other, fr);
  _save_report file write_console :=
    bind (gets (fun fr => report_text (self fr))) (fun text =>
    bind (io (write file text)) (fun _ =>
    if write_console then
      modify (fun fr =>
        {| self := self fr;
           env := {| fs := fs (env fr); free := free (env fr);
                     open_files := open_files (env fr);
                     jsonpickle := jsonpickle (env fr);
                     stdout := stdout (env fr) ++ [text] |} |})
    else ret tt));
  _save_visual_report path :=
    bind (gets (fun fr => interestingness_names (self fr))) (fun names =>
    for_each names (fun name =>
      with_ (io (open (app path [name ++ ".png"]) ModeW)) (fun image =>
        io (write image "PNG"))));
  get_sample_interesting_aspects s a r ns :=
    gets (fun fr =>
      sample_interesting_aspects (self fr)
        {| s_state := s; s_action := a; s_reward := r; s_next := ns |});
  get_interestingness_names := gets (fun fr => interestingness_names (self fr));
  get_stats := gets (fun fr => stats (self fr));
  _after_loaded_json := ret tt
|}.

(** ** What is read back from a JSON file

    [jsonpickle] turns the object into nested dictionaries and lists and
    has the [json] backend write them, with the keys of every dictionary
    in ascending order when [sort_keys] is set, as [save_json] sets it.
    Reading the text back builds new objects, dictionaries in the order of
    the text: values are kept, the order of insertion into a dictionary
    and the identity of an object are not. *)










(** ** Example data *)

Definition example_config : value := VObj "EnvironmentConfiguration" [].

Definition example_helper : value :=
  VObj "ScenarioHelper" [("config", example_config)].

Definition example_agent : value := VObj "QValueBasedAgent" [].

(** The scenario of the spec: variant [RareOutcome] with the one element
    [rare-1] holding the sample [(3, 1, 0.9, 7)]. *)
Definition rare_outcome : analysis := {|
  py_class := "RareOutcome";
  agent := example_agent;
  helper := example_helper;
  config := example_config;
  findings :=
    [("rare-1",
      [{| s_state := 3; s_action := 1; s_reward := Finite (9 # 10)%Q; s_next := 7 |}])]
|}.



Definition frequent_state : analysis := {|
  py_class := "FrequentState";
  agent := example_agent;
  helper := example_helper;
  config := example_config;
  findings := []
|}.

Definition default_jsonpickle : jsonpickle_state := {|
  backend_names := ["simplejson"; "json"];
  encoder_options := ∅
|}.

(** A root directory holding [out/stale.png] and three JSON files: one
    that decodes to a plain value, one that does not decode and one that
    decodes to the example instance. *)
Definition example_world : world := {|
  fs := Dir (<["out" := Dir (<["stale.png" := File "old"]> ∅)]>
             (<["old.json" := File "{}"]>
                (<["bad.json" := File "oops"]>
                   (<["saved.json" := File "RareOutcome"]> ∅))));
  free := 1000;
  open_files := ∅;
  jsonpickle := default_jsonpickle;
  stdout := []
|}.

Definition example_process : process :=
  {| p_env := example_world; p_calls := [] |}.

Definition example_bound : bound :=
  {| b_self := rare_outcome; b_proc := example_process |}.

(** The same in a process from which the [json] backend has been
    removed. *)
Definition unloaded_bound : bound :=
  {| b_self := rare_outcome;
     b_proc :=
       {| p_env :=
            set_jsonpickle
              {| backend_names := ["simplejson"]; encoder_options := ∅ |}
              example_world;
          p_calls := [] |} |}.

(** The same with no space left on the device. *)
Definition full_bound : bound :=
  {| b_self := rare_outcome;
     b_proc := {| p_env := set_free 0 example_world; p_calls := [] |} |}.

(** A stand-in for the serializer, enough to run the examples: it writes
    the class name and reads the name of an example class back as that
    example instance without its collaborators, a NaN as a new object and
    the elements in ascending order of their names. *)
Definition example_encode (_ : jsonpickle_state) (a : analysis) : result string :=
  Ok (py_class a).

Definition example_decode (_ : jsonpickle_state) (s : string) : result decoded :=
  if String.eqb s "RareOutcome" then
    Ok (Instance_ (with_config VNone (with_helper VNone (with_agent VNone rare_outcome))))
  else if String.eqb s "{}" then Ok (Plain VNone)
  else if String.eqb s "NanOutcome" then
    Ok (Instance_
          {| py_class := "NanOutcome"; agent := VNone; helper := VNone;
             config := VNone;
             findings :=
               [("rare-1",
                 [{| s_state := 3; s_action := 1; s_reward := NaN 1;
                     s_next := 7 |}])] |})
  else if String.eqb s "TwoOutcomes" then
    Ok (Instance_
          {| py_class := "TwoOutcomes"; agent := VNone; helper := VNone;
             config := VNone;
             findings :=
               [("rare-1", []);
                ("rare-2",
                 [{| s_state := 3; s_action := 1;
                     s_reward := Finite (9 # 10)%Q; s_next := 7 |}])] |})
  else Raise ValueError.

(** * Properties *)

(** ** The file system *)

Lemma lookup_path_cons (e : gmap string node) x rest :
  lookup_path (Dir e) (x :: rest) =
  match e !! x with Some c => lookup_path c rest | None => None end.
Proof. reflexivity. Qed.

(** What [makedirs] returns has an empty directory at the path. *)
Lemma makedirs_entry_creates x rest n n' :
  makedirs_entry x rest n = Ok n' →
  lookup_path n' (x :: rest) = Some (Dir ∅).
Proof.
  revert x n n'.
  induction rest as [|y rest IH]; intros x [c|e] n' Hm; simpl in Hm;
    try discriminate.
  - destruct (e !! x); [discriminate|]. injection Hm as <-.
    rewrite lookup_path_cons, lookup_insert_eq. reflexivity.
  - destruct (makedirs_entry y rest _) as [c'|] eqn:Hc; [|discriminate].
    injection Hm as <-. rewrite lookup_path_cons, lookup_insert_eq.
    eapply IH, Hc.
Qed.

(** A successful update leaves at the path what [f] answered for what was
    there. *)
Lemma update_entry_lookup f x rest n n' :
  update_entry f x rest n = Ok n' →
  f (lookup_path n (x :: rest)) = Ok (lookup_path n' (x :: rest)).
Proof.
  revert x n n'.
  induction rest as [|y rest IH]; intros x [c|e] n' Hu; simpl in Hu;
    try discriminate.
  - rewrite !lookup_path_cons.
    assert (Hl : ∀ o : option node,
               match o with Some c => lookup_path c [] | None => None end = o)
      by (intros [?|]; reflexivity).
    rewrite Hl.
    destruct (f (e !! x)) as [[c|]|] eqn:Hf; try discriminate;
      injection Hu as <-; rewrite lookup_path_cons.
    + rewrite lookup_insert_eq. reflexivity.
    + rewrite lookup_delete_eq. reflexivity.
  - rewrite lookup_path_cons. destruct (e !! x) as [c|] eqn:Hx; [|discriminate].
    destruct (update_entry f y rest c) as [c'|] eqn:Hc; [|discriminate].
    injection Hu as <-. rewrite lookup_path_cons, lookup_insert_eq.
    eapply IH, Hc.
Qed.

(** An entry that exists can be updated whenever [f] accepts it. *)
Lemma update_entry_present f x rest n o :
  is_Some (lookup_path n (x :: rest)) →
  f (lookup_path n (x :: rest)) = Ok o →
  ∃ n', update_entry f x rest n = Ok n'.
Proof.
  revert x n.
  induction rest as [|y rest IH]; intros x [c|e] [d Hd] Hf; simpl in Hd;
    try discriminate.
  - rewrite lookup_path_cons in Hf. simpl.
    destruct (e !! x) as [c|] eqn:Hx; [|discriminate].
    simpl in Hf. rewrite Hf. destruct o; eauto.
  - rewrite lookup_path_cons in Hf. simpl.
    destruct (e !! x) as [c|] eqn:Hx; [|discriminate].
    destruct (IH y c) as [c' Hc']; [eauto|exact Hf|]. rewrite Hc'. eauto.
Qed.

(** On an existing directory [rmtree] and then [makedirs] both succeed,
    and together they replace the directory by an empty one. *)
Lemma rmtree_then_makedirs x rest n entries :
  lookup_path n (x :: rest) = Some (Dir entries) →
  ∃ n1 n2,
    update_entry rmtree_at x rest n = Ok n1
    ∧ makedirs_entry x rest n1 = Ok n2
    ∧ update_entry (fun _ => Ok (Some (Dir ∅))) x rest n = Ok n2.
Proof.
  revert x n.
  induction rest as [|y rest IH]; intros x [c|e] Hl; simpl in Hl;
    try discriminate.
  - destruct (e !! x) as [c|] eqn:Hx; [|discriminate].
    simpl in Hl. injection Hl as ->.
    simpl. rewrite Hx. simpl. eexists _, _. split; [reflexivity|].
    simpl. rewrite lookup_delete_eq. split; [reflexivity|].
    by rewrite insert_delete_eq.
  - destruct (e !! x) as [c|] eqn:Hx; [|discriminate].
    destruct (IH y c Hl) as (c1 & c2 & H1 & H2 & H3).
    simpl. rewrite Hx, H1. eexists _, _. split; [reflexivity|].
    simpl. rewrite lookup_insert_eq. simpl. rewrite H2, H3.
    split; [reflexivity|]. by rewrite insert_insert_eq.
Qed.

(** The file-system operations fail with [OSError]s only. *)
Lemma update_entry_os_error f x rest n e :
  (∀ o e', f o = Raise e' → is_os_error e' = true) →
  update_entry f x rest n = Raise e → is_os_error e = true.
Proof.
  intros Hf. revert x n.
  induction rest as [|y rest IH]; intros x [c|m] Hu; simpl in Hu;
    try (injection Hu as <-; reflexivity).
  - destruct (f (m !! x)) as [[?|]|e'] eqn:He; try discriminate.
    injection Hu as <-. eauto.
  - destruct (m !! x) as [c|]; [|injection Hu as <-; reflexivity].
    destruct (update_entry f y rest c) eqn:Hc; [discriminate|].
    injection Hu as <-. eauto.
Qed.

Lemma makedirs_entry_os_error x rest n e :
  makedirs_entry x rest n = Raise e → is_os_error e = true.
Proof.
  revert x n.
  induction rest as [|y rest IH]; intros x [c|m] Hu; simpl in Hu;
    try (injection Hu as <-; reflexivity).
  - destruct (m !! x); [|discriminate]. injection Hu as <-. reflexivity.
  - destruct (makedirs_entry y rest _) eqn:Hc; [discriminate|].
    injection Hu as <-. eauto.
Qed.

Lemma rmtree_at_os_error o e : rmtree_at o = Raise e → is_os_error e = true.
Proof. destruct o as [[?|?]|]; simpl; intros; simplify_eq; reflexivity. Qed.

#[local] Arguments lookup_path : simpl never.
#[local] Arguments update_entry : simpl never.
#[local] Arguments makedirs_entry : simpl never.
#[local] Arguments open : simpl never.
#[local] Arguments write : simpl never.
#[local] Arguments read : simpl never.

(** ** File objects *)

(** A file opened for writing is empty and its handle is in the table;
    what the old content took is free again. *)
Lemma open_w_truncates p w fd w1 :
  open p ModeW w = (Ok fd, w1) →
  lookup_path (fs w1) p = Some (File EmptyString)
  ∧ open_files w1 !! fd = Some {| f_path := p; f_mode := ModeW; f_pos := 0 |}
  ∧ free w1 = free w + file_size (lookup_path (fs w) p)
  ∧ jsonpickle w1 = jsonpickle w.
Proof.
  unfold open. destruct p as [|x rest]; [discriminate|].
  destruct (update_entry truncate_at x rest (fs w)) as [n|e] eqn:Hu;
    [|discriminate].
  intros [= <- <-]. simpl. rewrite lookup_insert_eq.
  apply update_entry_lookup in Hu. split; [|done].
  destruct (lookup_path (fs w) (x :: rest)) as [[?|?]|]; simpl in Hu;
    by simplify_eq.
Qed.

(** A failed [open] changes nothing. *)
Lemma open_raise p m w e w1 : open p m w = (Raise e, w1) → w1 = w.
Proof.
  unfold open. destruct m.
  - destruct (lookup_path (fs w) p) as [[?|?]|]; by intros [= <-].
  - destruct p as [|x rest]; [by intros [= <-]|].
    destruct (update_entry truncate_at x rest (fs w)); by intros [= <-].
Qed.

(** [open] does not look at the serializer's configuration. *)
Lemma open_set_jsonpickle p m j w :
  open p m (set_jsonpickle j w)
  = (fst (open p m w), set_jsonpickle j (snd (open p m w))).
Proof.
  unfold open. destruct m; simpl.
  - destruct (lookup_path (fs w) p) as [[?|?]|]; reflexivity.
  - destruct p as [|x rest]; [reflexivity|].
    destruct (update_entry truncate_at x rest (fs w)); reflexivity.
Qed.

Lemma write_outcome fd s w r w2 :
  write fd s w = (r, w2) →
  jsonpickle w2 = jsonpickle w ∧ open_files w2 = open_files w.
Proof.
  unfold write.
  destruct (open_files w !! fd) as [[p [|] pos]|]; try by intros [= <- <-].
  destruct (decide _); [|by intros [= <- <-]].
  destruct p as [|x rest]; [by intros [= <- <-]|].
  destruct (is_file _); [|by intros [= <- <-]].
  destruct (update_entry _ _ _ _); by intros [= <- <-].
Qed.

(** Writing to a file that was just opened succeeds when there is room,
    and the file then holds the text. *)
Lemma write_after_open x rest fd s w1 :
  lookup_path (fs w1) (x :: rest) = Some (File EmptyString) →
  open_files w1 !! fd
  = Some {| f_path := x :: rest; f_mode := ModeW; f_pos := 0 |} →
  String.length s <= free w1 →
  ∃ w2, write fd s w1 = (Ok tt, w2)
        ∧ lookup_path (fs w2) (x :: rest) = Some (File s).
Proof.
  intros Hf Hh Hfree. unfold write. rewrite Hh.
  rewrite decide_True by exact Hfree. rewrite Hf. simpl.
  destruct (update_entry_present (append_at s) x rest (fs w1) (Some (File s)))
    as [n Hn]; [rewrite Hf; eauto|by rewrite Hf|].
  rewrite Hn. eexists. split; [reflexivity|]. simpl.
  apply update_entry_lookup in Hn. rewrite Hf in Hn. simpl in Hn.
  by injection Hn as <-.
Qed.

(** The descriptor handed out by [open] is not in use. *)
Lemma fresh_fd_bound (t : gmap nat file_object) k :
  is_Some (t !! k) → k < fresh_fd t.
Proof.
  unfold fresh_fd. revert k.
  apply (map_fold_weak_ind
           (fun r (m : gmap nat file_object) =>
              ∀ k, is_Some (m !! k) → k < S r)).
  - intros k [? Hk]. by rewrite lookup_empty in Hk.
  - intros i x m r _ IH k Hk. destruct (decide (k = i)) as [->|Hne].
    + lia.
    + rewrite lookup_insert_ne in Hk by done. specialize (IH k Hk). lia.
Qed.

Lemma fresh_fd_fresh (t : gmap nat file_object) : t !! fresh_fd t = None.
Proof.
  destruct (t !! fresh_fd t) eqn:Hk; [|reflexivity].
  pose proof (fresh_fd_bound t (fresh_fd t)) as Hb.
  rewrite Hk in Hb. specialize (Hb (mk_is_Some _ _ eq_refl)). lia.
Qed.

Lemma substring_all (s : string) :
  String.substring 0 (String.length s) s = s.
Proof. induction s as [|ch s IH]; simpl; [reflexivity|by rewrite IH]. Qed.

(** Opening an existing regular file for reading, reading it whole and
    closing it again leaves the environment as it was. *)
Lemma open_read (p : path) (w : world) (c : string) :
  lookup_path (fs w) p = Some (File c) →
  let fd := fresh_fd (open_files w) in
  ∃ w1 w2, open p ModeR w = (Ok fd, w1)
           ∧ read fd w1 = (Ok c, w2)
           ∧ set_open_files (delete fd (open_files w2)) w2 = w.
Proof.
  intros Hl fd. unfold open. rewrite Hl. eexists _, _. split; [reflexivity|].
  unfold read. simpl. rewrite lookup_insert_eq, Hl.
  rewrite Nat.sub_0_r, substring_all. split; [reflexivity|].
  unfold set_open_files; simpl.
  rewrite delete_insert_eq, delete_insert_id by apply fresh_fd_fresh.
  by destruct w.
Qed.

(** ** The reports *)

Ltac run :=
  unfold save_report, save_visual_report, save_json, load_json, with_,
    invoke, on, io, bind, ret, raise, gets, modify, of_result, get_self,
    set_self, path_exists, makedirs, rmtree, close, set_preferred_backend,
    set_encoder_options; simpl.

Section Reports.
Context `{AnalysisBase}.


(** C4: with [clean=False] on an existing directory [save_visual_report]
    removes and creates nothing: [_save_visual_report] is called in the
    very state [save_visual_report] was called in, so every file that was
    there is still there. *)
Theorem save_visual_report_reuses (path : path) (entries : gmap string node)
    (st : bound) :
  lookup_path (fs (p_env (b_proc st))) path = Some (Dir entries) →
  save_visual_report path false st
  = invoke (Call_save_visual_report path) (_save_visual_report path) st.
Proof.
  intros Hl. destruct st as [a [w c]]; simpl in *. run.
  rewrite Hl. rewrite bool_decide_true by eauto. simpl. reflexivity.
Qed.

(** With [clean=True] an existing directory is emptied and
    [_save_visual_report] is called on the result. *)
Lemma save_visual_report_emptied (path : path) (entries : gmap string node)
    (a : analysis) (w : world) (c : list call) :
  path ≠ [] →
  lookup_path (fs w) path = Some (Dir entries) →
  ∃ n, fs_emptied path (fs w) = Ok n
       ∧ lookup_path n path = Some (Dir ∅)
       ∧ save_visual_report path true
           {| b_self := a; b_proc := {| p_env := w; p_calls := c |} |}
         = invoke (Call_save_visual_report path) (_save_visual_report path)
             {| b_self := a;
                b_proc := {| p_env := set_fs n w; p_calls := c |} |}.
Proof.
  intros Hne Hl. destruct path as [|x rest]; [done|].
  destruct (rmtree_then_makedirs _ _ _ _ Hl) as (n1 & n2 & H1 & H2 & H3).
  exists n2. split; [exact H3|].
  split; [eapply makedirs_entry_creates, H2|].
  run. rewrite Hl. rewrite bool_decide_true by eauto.
  simpl. rewrite H1. simpl. rewrite H2. reflexivity.
Qed.

(** C3: with [clean=True], whenever [save_visual_report] gets as far as
    calling [_save_visual_report], the path is an empty directory at that
    moment; otherwise it raises an [OSError] without having called it.  A
    path that does not exist is created with [makedirs]; an existing
    directory is replaced by an empty one, so nothing that was in it is
    left. *)
Theorem save_visual_report_clean (path : path) (st : bound) :
  let w := p_env (b_proc st) in
  let delegate n :=
    invoke (Call_save_visual_report path) (_save_visual_report path)
      (sys_put (set_fs n w) st) in
  ((∃ e s1, save_visual_report path true st = (Raise e, s1)
            ∧ is_os_error e = true
            ∧ b_self s1 = b_self st
            ∧ p_calls (b_proc s1) = p_calls (b_proc st))
   ∨ (∃ n, lookup_path n path = Some (Dir ∅)
           ∧ save_visual_report path true st = delegate n))
  ∧ (lookup_path (fs w) path = None →
     ∀ n, fs_makedirs path (fs w) = Ok n →
          lookup_path n path = Some (Dir ∅)
          ∧ save_visual_report path true st = delegate n)
  ∧ (∀ entries, path ≠ [] →
       lookup_path (fs w) path = Some (Dir entries) →
       ∃ n, fs_emptied path (fs w) = Ok n
            ∧ lookup_path n path = Some (Dir ∅)
            ∧ save_visual_report path true st = delegate n).
Proof.
  destruct st as [a [w c]]; simpl.
  set (st := {| b_self := a; b_proc := {| p_env := w; p_calls := c |} |}).
  set (delegate := fun n =>
    invoke (Call_save_visual_report path) (_save_visual_report path)
      {| b_self := a; b_proc := {| p_env := set_fs n w; p_calls := c |} |}).
  assert (HB : lookup_path (fs w) path = None →
     ∀ n, fs_makedirs path (fs w) = Ok n →
          lookup_path n path = Some (Dir ∅)
          ∧ save_visual_report path true st = delegate n).
  { intros Hl n Hn. split.
    - destruct path; [discriminate|]. eapply makedirs_entry_creates, Hn.
    - subst st delegate. run. rewrite Hl.
      rewrite bool_decide_false by (intros [? ?]; discriminate). simpl.
      rewrite Hn. reflexivity. }
  assert (HC : ∀ entries, path ≠ [] →
     lookup_path (fs w) path = Some (Dir entries) →
     ∃ n, fs_emptied path (fs w) = Ok n
          ∧ lookup_path n path = Some (Dir ∅)
          ∧ save_visual_report path true st = delegate n).
  { intros entries Hne Hl. subst st delegate.
    by eapply save_visual_report_emptied. }
  split; [|split; [exact HB|exact HC]].
  destruct (lookup_path (fs w) path) as [[content|entries]|] eqn:Hl.
  - left. destruct path as [|x rest].
    + injection Hl as Hl. eexists _, _. subst st. run.
      rewrite Hl. split; [reflexivity|]. done.
    + pose proof (update_entry_lookup rmtree_at x rest (fs w)) as Hu.
      subst st. run. rewrite Hl. rewrite bool_decide_true by eauto. simpl.
      destruct (update_entry rmtree_at x rest (fs w)) as [n1|e] eqn:Hr.
      * specialize (Hu _ eq_refl). rewrite Hl in Hu. discriminate.
      * eexists _, _. split; [reflexivity|]. split; [|done].
        eapply update_entry_os_error, Hr. apply rmtree_at_os_error.
  - destruct path as [|x rest].
    + left. injection Hl as Hl. eexists _, _. subst st. run.
      rewrite Hl. split; [reflexivity|]. done.
    + right. destruct (HC entries) as (n & _ & Hn & Hs); [done|reflexivity|].
      eauto.
  - destruct (fs_makedirs path (fs w)) as [n|e] eqn:Hm.
    + right. exists n. by apply HB.
    + left. eexists _, _. subst st. run. rewrite Hl.
      rewrite bool_decide_false by (intros [? ?]; discriminate). simpl.
      rewrite Hm. split; [reflexivity|]. split; [|done].
      destruct path; [by simplify_eq|]. eapply makedirs_entry_os_error, Hm.
Qed.

(** C10: with [clean=True] on an existing directory, the directory has
    been emptied by the time [_save_visual_report] runs; when that call
    raises, the caller gets its exception and the environment exactly as
    the failed call left it, with one call on record: nothing puts the old
    content back. *)
Theorem save_visual_report_not_atomic (path : path)
    (entries : gmap string node) (st : bound) :
  let w := p_env (b_proc st) in
  path ≠ [] →
  lookup_path (fs w) path = Some (Dir entries) →
  ∃ n, fs_emptied path (fs w) = Ok n
       ∧ lookup_path n path = Some (Dir ∅)
       ∧ ∀ e fr,
           _save_visual_report path {| self := b_self st; env := set_fs n w |}
           = (Raise e, fr) →
           save_visual_report path true st
           = (Raise e,
              {| b_self := self fr;
                 b_proc := {| p_env := env fr;
                              p_calls := p_calls (b_proc st)
                                         ++ [Call_save_visual_report path] |} |}).
Proof.
  destruct st as [a [w c]]. simpl. intros Hne Hl.
  destruct (save_visual_report_emptied path entries a w c Hne Hl)
    as (n & Hn & Hempty & Hs).
  exists n. split; [exact Hn|]. split; [exact Hempty|].
  intros e fr Hd. rewrite Hs. unfold invoke. simpl. rewrite Hd. reflexivity.
Qed.

End Reports.

(** ** Saving to JSON *)

Section Json.
Context (encode : jsonpickle_state -> analysis -> result string).
Context (decode : jsonpickle_state -> string -> result decoded).
Context `{AnalysisBase}.

(** The ways [save_json] can end, each with the state it leaves.  The
    collaborators are bound again only on the path on which the file has
    been opened, encoded to and written.  When the [json] backend is not
    loaded the call ends at [set_preferred_backend]. *)
Lemma save_json_cases (json_file_path : path) (a : analysis) (w : world)
    (c : list call) :
  let st := {| b_self := a; b_proc := {| p_env := w; p_calls := c |} |} in
  let w0 := set_jsonpickle (json_configured (jsonpickle w)) w in
  let bare := without_collaborators a in
  let final r x w' :=
    save_json encode json_file_path st
    = (r, {| b_self := x; b_proc := {| p_env := w'; p_calls := c |} |}) in
  if loaded "json" (jsonpickle w) then
    match open json_file_path ModeW w0 with
    | (Raise e, _) => final (Raise e) bare w0
    | (Ok fd, w1) =>
        let closed w' := set_open_files (delete fd (open_files w')) w' in
        match encode (jsonpickle w1) bare with
        | Raise e => final (Raise e) bare (closed w1)
        | Ok text =>
            match write fd text w1 with
            | (Raise e, w2) => final (Raise e) bare (closed w2)
            | (Ok _, w2) =>
                match getattr (helper a) "config" with
                | Raise e =>
                    final (Raise e)
                      (with_helper (helper a) (with_agent (agent a) bare))
                      (closed w2)
                | Ok cfg =>
                    final (Ok tt)
                      (with_config cfg
                         (with_helper (helper a) (with_agent (agent a) bare)))
                      (closed w2)
                end
            end
        end
    end
  else final (Raise (AssertionError "json")) bare w.
Proof.
  intros st w0 bare final. subst final. cbv beta.
  change (save_json encode json_file_path st) with
    (save_json encode json_file_path
       {| b_self := a; b_proc := {| p_env := w; p_calls := c |} |}).
  run. fold (without_collaborators a). fold bare.
  destruct (loaded "json" (jsonpickle w)) eqn:Hjson; simpl;
    [|by destruct w].
  change (set_jsonpickle _ (set_jsonpickle _ w)) with w0.
  destruct (open json_file_path ModeW w0) as [[fd|e] w1] eqn:Ho; simpl.
  - destruct (encode (jsonpickle w1) bare) as [text|e]; simpl; [|reflexivity].
    destruct (write fd text w1) as [[[]|e] w2]; simpl; [|reflexivity].
    destruct (getattr (helper a) "config") as [cfg|e]; reflexivity.
  - apply open_raise in Ho. subst w1. reflexivity.
Qed.

(** When the [json] backend is loaded, the file can be opened, the
    instance encoded and the text written, [save_json] leaves the text in
    the file. *)
Lemma save_json_written (json_file_path : path) (a : analysis) (w : world)
    (c : list call) (text : string) :
  loaded "json" (jsonpickle w) = true →
  is_ok (fst (open json_file_path ModeW w)) = true →
  encode (json_configured (jsonpickle w)) (without_collaborators a) = Ok text →
  String.length text <= free w + file_size (lookup_path (fs w) json_file_path) →
  ∃ w',
    lookup_path (fs w') json_file_path = Some (File text)
    ∧ jsonpickle w' = json_configured (jsonpickle w)
    ∧ save_json encode json_file_path
        {| b_self := a; b_proc := {| p_env := w; p_calls := c |} |}
      = match getattr (helper a) "config" with
        | Ok cfg =>
            (Ok tt,
             {| b_self :=
                  with_config cfg
                    (with_helper (helper a)
                       (with_agent (agent a) (without_collaborators a)));
                b_proc := {| p_env := w'; p_calls := c |} |})
        | Raise e =>
            (Raise e,
             {| b_self :=
                  with_helper (helper a)
                    (with_agent (agent a) (without_collaborators a));
                b_proc := {| p_env := w'; p_calls := c |} |})
        end.
Proof.
  intros Hjson Hopen Henc Hfree.
  pose proof (save_json_cases json_file_path a w c) as Hc. cbv zeta in Hc.
  rewrite Hjson, open_set_jsonpickle in Hc.
  destruct (open json_file_path ModeW w) as [[fd|e] w1] eqn:Ho; [|discriminate].
  simpl in Hc. rewrite Henc in Hc.
  destruct json_file_path as [|x rest]; [discriminate|].
  apply open_w_truncates in Ho as (Hf & Hh & Hfr & Hj).
  destruct (write_after_open x rest fd text
              (set_jsonpickle (json_configured (jsonpickle w)) w1))
    as (w2 & Hw & Hl); [exact Hf|exact Hh|simpl; lia|].
  rewrite Hw in Hc. apply write_outcome in Hw as [Hj2 _].
  eexists. split; [|split; [|destruct (getattr _ _); exact Hc]].
  - exact Hl.
  - simpl. rewrite Hj2. reflexivity.
Qed.

(** When [save_json] returns, [agent] and [helper] are bound as they were
    and [config] is bound to the helper's [config]. *)
Lemma save_json_restores_on_return (json_file_path : path) (st : bound) :
  fst (save_json encode json_file_path st) = Ok tt →
  let a := b_self st in
  let a' := b_self (snd (save_json encode json_file_path st)) in
  agent a' = agent a ∧ helper a' = helper a
  ∧ getattr (helper a) "config" = Ok (config a').
Proof.
  destruct st as [a [w c]]. simpl.
  pose proof (save_json_cases json_file_path a w c) as Hc. cbv zeta in Hc.
  destruct (loaded _ _); [|by rewrite Hc].
  destruct (open _ _ _) as [[fd|e] w1]; [|by rewrite Hc].
  destruct (encode _ _) as [text|e]; [|by rewrite Hc].
  destruct (write fd text w1) as [[[]|e] w2]; [|by rewrite Hc].
  destruct (getattr (helper a) "config") as [cfg|e]; by rewrite Hc.
Qed.

(** [__init__] binds the helper, the helper's [config] and the agent. *)
Lemma init_binds (h g c : value) (st : bound) :
  getattr h "config" = Ok c →
  __init__ h g st
  = (Ok tt,
     {| b_self := with_agent g (with_config c (with_helper h (b_self st)));
        b_proc := b_proc st |}).
Proof. intros Hc. unfold __init__. run. rewrite Hc. reflexivity. Qed.

(** On an instance whose [config] is its helper's, as [__init__] leaves
    it, a [save_json] that returns has changed no attribute. *)
Lemma save_json_returns_unchanged (json_file_path : path) (st : bound) :
  getattr (helper (b_self st)) "config" = Ok (config (b_self st)) →
  fst (save_json encode json_file_path st) = Ok tt →
  b_self (snd (save_json encode json_file_path st)) = b_self st.
Proof.
  destruct st as [a [w c]]. simpl. intros Hcfg.
  pose proof (save_json_cases json_file_path a w c) as Hc. cbv zeta in Hc.
  destruct (loaded _ _); [|by rewrite Hc].
  destruct (open _ _ _) as [[fd|e] w1]; [|by rewrite Hc].
  destruct (encode _ _) as [text|e]; [|by rewrite Hc].
  destruct (write fd text w1) as [[[]|e] w2]; [|by rewrite Hc].
  rewrite Hcfg in Hc. rewrite Hc. intros _. by destruct a.
Qed.

(** When the file cannot be opened, [save_json] raises the error of
    [open] and leaves [agent], [helper] and [config] bound to [None]. *)
Lemma save_json_open_error (json_file_path : path) (st : bound) (e : exn) :
  loaded "json" (jsonpickle (p_env (b_proc st))) = true →
  fst (open json_file_path ModeW (p_env (b_proc st))) = Raise e →
  fst (save_json encode json_file_path st) = Raise e
  ∧ b_self (snd (save_json encode json_file_path st))
    = without_collaborators (b_self st).
Proof.
  destruct st as [a [w c]]. simpl. intros Hjson He.
  pose proof (save_json_cases json_file_path a w c) as Hc. cbv zeta in Hc.
  rewrite Hjson, open_set_jsonpickle in Hc. rewrite He in Hc. simpl in Hc.
  by rewrite Hc.
Qed.

(** The serializer's configuration after [save_json], however it ends,
    when the [json] backend is loaded. *)
Lemma save_json_jsonpickle (json_file_path : path) (st : bound) :
  loaded "json" (jsonpickle (p_env (b_proc st))) = true →
  jsonpickle (p_env (b_proc (snd (save_json encode json_file_path st))))
  = json_configured (jsonpickle (p_env (b_proc st))).
Proof.
  destruct st as [a [w c]]. simpl. intros Hjson.
  pose proof (save_json_cases json_file_path a w c) as Hc. cbv zeta in Hc.
  rewrite Hjson in Hc.
  destruct (open _ _ _) as [[fd|e] w1] eqn:Ho; [|by rewrite Hc].
  apply open_w_truncates in Ho as (_ & _ & _ & Hj). simpl in Hj.
  destruct (encode _ _) as [text|e]; [|by rewrite Hc].
  destruct (write fd text w1) as [[[]|e] w2] eqn:Hw;
    apply write_outcome in Hw as [Hj2 _].
  - destruct (getattr _ _); rewrite Hc; simpl; congruence.
  - rewrite Hc; simpl; congruence.
Qed.

(** C9, as amended: a call of [save_json] made while the [json] backend
    is loaded leaves, however it ends, the module-level configuration of
    the serializer with [json] as the preferred backend and
    [sort_keys=True, indent=4] as the options of its encoder, whatever was
    configured before, and a later [encode] or [decode] in the process
    reads this configuration.  A call made while the [json] backend is not
    loaded raises [AssertionError] and leaves the configuration as it
    was. *)
Theorem save_json_sets_serializer_options (json_file_path : path)
    (st : bound) :
  let before := jsonpickle (p_env (b_proc st)) in
  let out := save_json encode json_file_path st in
  let after := jsonpickle (p_env (b_proc (snd out))) in
  if loaded "json" before then
    after = json_configured before
    ∧ head (backend_names after) = Some "json"
    ∧ encoder_options after !! "json"
      = Some (<["sort_keys" := VBool true]> (<["indent" := VInt 4]> ∅))
  else
    fst out = Raise (AssertionError "json") ∧ after = before.
Proof.
  intros before out after.
  destruct (loaded "json" before) eqn:Hjson.
  - assert (Ha : after = json_configured before)
      by (apply save_json_jsonpickle, Hjson).
    rewrite Ha. split; [reflexivity|]. split; [reflexivity|].
    simpl. apply lookup_insert_eq.
  - subst before out after. destruct st as [a [w c]]. simpl in *.
    pose proof (save_json_cases json_file_path a w c) as Hc. cbv zeta in Hc.
    rewrite Hjson in Hc. by rewrite Hc.
Qed.

(** C5: when [save_json] gets to write, that is, the [json] backend is
    loaded, the path can be opened for writing and there is room for the
    text, the file at the path holds, after [save_json], exactly the
    encoding of the instance with [agent], [helper] and [config] bound to
    [None], made with the [json] backend preferred and the encoder options
    [sort_keys=True, indent=4]; what the file held before is gone. *)
Theorem save_json_writes_encoding (json_file_path : path) (st : bound)
    (text : string) :
  let w := p_env (b_proc st) in
  loaded "json" (jsonpickle w) = true →
  is_ok (fst (open json_file_path ModeW w)) = true →
  encode (json_configured (jsonpickle w)) (without_collaborators (b_self st))
  = Ok text →
  String.length text <= free w + file_size (lookup_path (fs w) json_file_path) →
  lookup_path (fs (p_env (b_proc (snd (save_json encode json_file_path st)))))
    json_file_path
  = Some (File text).
Proof.
  destruct st as [a [w c]]. simpl. intros Hjson Hopen Henc Hfree.
  destruct (save_json_written json_file_path a w c text Hjson Hopen Henc
              Hfree) as (w' & Hl & _ & Hs).
  rewrite Hs. by destruct (getattr _ _).
Qed.

(** ** Loading from JSON *)

(** A file that cannot be opened: the error of [open], nothing changed. *)
Lemma load_json_open_error (json_file_path : path) (st : process) (e : exn) :
  fst (open json_file_path ModeR (p_env st)) = Raise e →
  load_json decode json_file_path st = (Raise e, st).
Proof.
  destruct st as [w calls]. simpl. intros He.
  unfold load_json, with_. unfold io at 1. simpl.
  destruct (open json_file_path ModeR w) as [r w1] eqn:Ho.
  simpl in He. subst r. apply open_raise in Ho. by subst w1.
Qed.

(** A text that does not decode: the error of [decode], nothing changed
    and no call made. *)
Lemma load_json_decode_error (json_file_path : path) (st : process)
    (c : string) (e : exn) :
  lookup_path (fs (p_env st)) json_file_path = Some (File c) →
  decode (jsonpickle (p_env st)) c = Raise e →
  load_json decode json_file_path st = (Raise e, st).
Proof.
  destruct st as [w calls]. simpl. intros Hl Hd.
  destruct (open_read _ _ _ Hl) as (w1 & w2 & Ho & Hr & Hc).
  unfold load_json, with_. unfold io at 1. simpl. rewrite Ho.
  unfold bind at 1. unfold io at 1. simpl. rewrite Hr.
  unfold bind at 1. simpl.
  assert (Hj : jsonpickle w2 = jsonpickle w) by (rewrite <- Hc; reflexivity).
  rewrite Hj, Hd. unfold io, close, modify. simpl. by rewrite Hc.
Qed.

(** A text that decodes to an analysis object: [_after_loaded_json] runs
    on the object, while the file is still open, and the object as the
    hook leaves it is returned. *)
Lemma load_json_decoded (json_file_path : path) (st : process) (c : string)
    (a : analysis) :
  let w := p_env st in
  let fd := fresh_fd (open_files w) in
  let closed w' := set_open_files (delete fd (open_files w')) w' in
  lookup_path (fs w) json_file_path = Some (File c) →
  decode (jsonpickle w) c = Ok (Instance_ a) →
  ∃ w2, closed w2 = w
    ∧ let '(r, fr) := _after_loaded_json {| self := a; env := w2 |} in
      load_json decode json_file_path st
      = (match r with Ok _ => Ok (self fr) | Raise e => Raise e end,
         {| p_env := closed (env fr);
            p_calls := p_calls st ++ [Call_after_loaded_json] |}).
Proof.
  destruct st as [w calls]. simpl. intros Hl Hd.
  destruct (open_read _ _ _ Hl) as (w1 & w2 & Ho & Hr & Hc).
  exists w2. split; [exact Hc|].
  destruct (_after_loaded_json _) as [r fr] eqn:Hh.
  unfold load_json, with_. unfold io at 1. simpl. rewrite Ho.
  unfold bind at 1. unfold io at 1. simpl. rewrite Hr.
  unfold bind at 1. simpl.
  assert (Hj : jsonpickle w2 = jsonpickle w) by (rewrite <- Hc; reflexivity).
  rewrite Hj, Hd. unfold bind, on, invoke, ret. simpl. rewrite Hh.
  destruct r; reflexivity.
Qed.

(** C6: [load_json] reads the file and decodes the text.  When the file
    cannot be opened or the text does not decode, the error is the outcome
    and the state is the one before the call, so [_after_loaded_json] has
    not been called.  When the text decodes to an analysis object,
    [_after_loaded_json] is called on that object, the record of calls
    grows by this one call, and the object is returned as the hook left
    it (or the hook's exception is raised). *)
Theorem load_json_calls_hook_once (json_file_path : path) (st : process) :
  let w := p_env st in
  let fd := fresh_fd (open_files w) in
  let closed w' := set_open_files (delete fd (open_files w')) w' in
  (∀ e, fst (open json_file_path ModeR w) = Raise e →
        load_json decode json_file_path st = (Raise e, st))
  ∧ (∀ c e, lookup_path (fs w) json_file_path = Some (File c) →
        decode (jsonpickle w) c = Raise e →
        load_json decode json_file_path st = (Raise e, st))
  ∧ (∀ c a, lookup_path (fs w) json_file_path = Some (File c) →
        decode (jsonpickle w) c = Ok (Instance_ a) →
        ∃ w2, closed w2 = w
          ∧ let '(r, fr) := _after_loaded_json {| self := a; env := w2 |} in
            load_json decode json_file_path st
            = (match r with Ok _ => Ok (self fr) | Raise e => Raise e end,
               {| p_env := closed (env fr);
                  p_calls := p_calls st ++ [Call_after_loaded_json] |})).
Proof.
  split; [|split].
  - intros e. apply load_json_open_error.
  - intros c e. apply load_json_decode_error.
  - intros c a. apply load_json_decoded.
Qed.

End Json.

(** ** A concrete analysis kind *)





Section RoundTrip.
Context (encode : jsonpickle_state -> analysis -> result string).
Context (decode : jsonpickle_state -> string -> result decoded).


End RoundTrip.

(** C8: [difference_to] with an instance of another variant raises
    [TypeError]; it returns nothing and leaves the instance as it was. *)
Theorem difference_to_other_variant (A B : analysis) (w : world) :
  py_class A ≠ py_class B →
  @difference_to elements_analysis B {| self := A; env := w |}
  = (Raise TypeError, {| self := A; env := w |}).
Proof.
  intros Hne. simpl. unfold variant_difference.
  destruct (String.eqb_spec (py_class A) (py_class B)); [done|reflexivity].
Qed.

(** ** Failing I/O during [save_json] *)

(** C1: [save_json] does not bind the collaborators again when opening
    or writing fails.  On the example instance, a path below a directory
    that does not exist makes [open] raise [FileNotFoundError], and a
    device without room makes [write] raise [OSError]; either way the
    call ends with [agent], [helper] and [config] bound to [None], though
    they were bound to objects before it. *)
Theorem save_json_io_error_unbinds :
  let missing :=
    save_json example_encode ["missing"; "analysis.json"] example_bound in
  let full := save_json example_encode ["analysis.json"] full_bound in
  agent rare_outcome = example_agent
  ∧ helper rare_outcome = example_helper
  ∧ config rare_outcome = example_config
  ∧ fst missing = Raise FileNotFoundError
  ∧ agent (b_self (snd missing)) = VNone
  ∧ helper (b_self (snd missing)) = VNone
  ∧ config (b_self (snd missing)) = VNone
  ∧ fst full = Raise (OSError "ENOSPC")
  ∧ agent (b_self (snd full)) = VNone
  ∧ helper (b_self (snd full)) = VNone
  ∧ config (b_self (snd full)) = VNone.
Proof. vm_compute. repeat split. Qed.

(** C9, as it was stated, fails: in a process from which the [json]
    backend has been removed, [save_json] raises [AssertionError] at
    [set_preferred_backend] and the serializer's configuration is what it
    was: [json] is not the preferred backend and has no encoder
    options. *)
Lemma save_json_unloaded_backend :
  let out := save_json example_encode ["analysis.json"] unloaded_bound in
  let after := jsonpickle (p_env (b_proc (snd out))) in
  fst out = Raise (AssertionError "json")
  ∧ after = jsonpickle (p_env (b_proc unloaded_bound))
  ∧ head (backend_names after) = Some "simplejson"
  ∧ encoder_options after !! "json" = None.
Proof. vm_compute. repeat split. Qed.


(** ** The properties at work on the example data *)

Lemma save_visual_report_reuses_witness :
  @save_visual_report elements_analysis ["out"] false example_bound
  = invoke (Call_save_visual_report ["out"])
      (@_save_visual_report elements_analysis ["out"]) example_bound.
Proof.
  apply (save_visual_report_reuses (H:=elements_analysis) ["out"]
           (<["stale.png" := File "old"]> ∅) example_bound).
  vm_compute. reflexivity.
Defined.

Lemma save_visual_report_clean_witness :
  (∃ n, lookup_path n ["new"; "plots"] = Some (Dir ∅)
        ∧ fs_makedirs ["new"; "plots"] (fs example_world) = Ok n
        ∧ @save_visual_report elements_analysis ["new"; "plots"] true
            example_bound
          = invoke (Call_save_visual_report ["new"; "plots"])
              (@_save_visual_report elements_analysis ["new"; "plots"])
              (sys_put (set_fs n example_world) example_bound))
  ∧ (∃ n, fs_emptied ["out"] (fs example_world) = Ok n
          ∧ lookup_path n ["out"] = Some (Dir ∅)
          ∧ @save_visual_report elements_analysis ["out"] true example_bound
            = invoke (Call_save_visual_report ["out"])
                (@_save_visual_report elements_analysis ["out"])
                (sys_put (set_fs n example_world) example_bound)).
Proof.
  split.
  - destruct (fs_makedirs ["new"; "plots"] (fs example_world)) as [n|] eqn:Hn;
      [|vm_compute in Hn; discriminate].
    exists n.
    destruct (proj1 (proj2 (save_visual_report_clean (H:=elements_analysis)
                              ["new"; "plots"] example_bound))
                ltac:(vm_compute; reflexivity) n Hn) as [Hempty Hcall].
    split; [exact Hempty|]. split; [reflexivity|exact Hcall].
  - apply (proj2 (proj2 (save_visual_report_clean (H:=elements_analysis)
                           ["out"] example_bound))
             (<["stale.png" := File "old"]> ∅)).
    + discriminate.
    + vm_compute. reflexivity.
Defined.

Lemma save_visual_report_not_atomic_witness :
  let out := @save_visual_report elements_analysis ["out"] true full_bound in
  fst out = Raise (OSError "ENOSPC")
  ∧ lookup_path (fs (p_env (b_proc (snd out)))) ["out"; "stale.png"] = None
  ∧ lookup_path (fs (p_env (b_proc (snd out)))) ["out"; "rare-1.png"]
    = Some (File EmptyString).
Proof.
  destruct (save_visual_report_not_atomic (H:=elements_analysis) ["out"]
              (<["stale.png" := File "old"]> ∅) full_bound)
    as (n & Hn & _ & Hraise); [discriminate|vm_compute; reflexivity|].
  vm_compute in Hn. injection Hn as <-.
  cbv zeta. erewrite Hraise; [|vm_compute; reflexivity].
  vm_compute. repeat split.
Defined.

Lemma save_json_sets_serializer_options_witness :
  let after :=
    jsonpickle
      (p_env (b_proc (snd (save_json example_encode ["missing"; "a.json"]
                             example_bound)))) in
  backend_names after = ["json"; "simplejson"]
  ∧ head (backend_names after) = Some "json"
  ∧ encoder_options after !! "json"
    = Some (<["sort_keys" := VBool true]> (<["indent" := VInt 4]> ∅)).
Proof.
  destruct (save_json_sets_serializer_options example_encode
              ["missing"; "a.json"] example_bound) as (Hafter & Hhead & Hopts).
  cbv zeta. split; [|split; [exact Hhead|exact Hopts]].
  rewrite Hafter. vm_compute. reflexivity.
Defined.

Lemma save_json_writes_encoding_witness :
  lookup_path
    (fs (p_env (b_proc (snd (save_json example_encode ["old.json"]
                               example_bound)))))
    ["old.json"]
  = Some (File "RareOutcome").
Proof.
  apply (save_json_writes_encoding example_encode ["old.json"] example_bound
           "RareOutcome").
  - vm_compute. reflexivity.
  - vm_compute. reflexivity.
  - vm_compute. reflexivity.
  - vm_compute. lia.
Defined.

Lemma load_json_calls_hook_once_witness :
  @load_json example_decode elements_analysis ["missing.json"] example_process
  = (Raise FileNotFoundError, example_process)
  ∧ @load_json example_decode elements_analysis ["bad.json"] example_process
    = (Raise ValueError, example_process)
  ∧ @load_json example_decode elements_analysis ["saved.json"] example_process
    = (Ok (without_collaborators rare_outcome),
       {| p_env := example_world; p_calls := [Call_after_loaded_json] |}).
Proof.
  split; [|split].
  - apply (proj1 (load_json_calls_hook_once example_decode
                    (H:=elements_analysis) ["missing.json"] example_process)).
    vm_compute. reflexivity.
  - apply (proj1 (proj2 (load_json_calls_hook_once example_decode
                           (H:=elements_analysis) ["bad.json"]
                           example_process)) "oops").
    + vm_compute. reflexivity.
    + vm_compute. reflexivity.
  - destruct (proj2 (proj2 (load_json_calls_hook_once example_decode
                              (H:=elements_analysis) ["saved.json"]
                              example_process))
                "RareOutcome" (without_collaborators rare_outcome))
      as (w2 & Hc & Hr); [vm_compute; reflexivity|vm_compute; reflexivity|].
    simpl in Hr. rewrite Hr. simpl in Hc. rewrite Hc. reflexivity.
Defined.


Lemma difference_to_other_variant_witness :
  @difference_to elements_analysis frequent_state
    {| self := rare_outcome; env := example_world |}
  = (Raise TypeError, {| self := rare_outcome; env := example_world |}).
Proof.
  apply (difference_to_other_variant rare_outcome frequent_state example_world).
  vm_compute. discriminate.
Defined.

(** The scenario of the spec. *)
Example rare_outcome_aspects :
  sample_interesting_aspects rare_outcome
    {| s_state := 3; s_action := 1; s_reward := Finite (9 # 10)%Q; s_next := 7 |}
  = ["rare-1"]
  ∧ sample_interesting_aspects rare_outcome
      {| s_state := 3; s_action := 1; s_reward := Finite (9 # 10)%Q; s_next := 8 |}
    = [].
Proof. vm_compute. split; reflexivity. Qed.

(** Two visual reports in a row with [clean=True]: only the images of the
    second are in the directory. *)
Example save_visual_report_twice :
  let first := @save_visual_report elements_analysis ["out"] true example_bound in
  let renamed :=
    {| b_self :=
         {| py_class := "RareOutcome"; agent := example_agent;
            helper := example_helper; config := example_config;
            findings := [("rare-2", [])] |};
       b_proc := b_proc (snd first) |} in
  let second := @save_visual_report elements_analysis ["out"] true renamed in
  lookup_path (fs (p_env (b_proc (snd first)))) ["out"]
  = Some (Dir (<["rare-1.png" := File "PNG"]> ∅))
  ∧ lookup_path (fs (p_env (b_proc (snd second)))) ["out"]
    = Some (Dir (<["rare-2.png" := File "PNG"]> ∅)).
Proof. vm_compute. split; reflexivity. Qed.

(** * Further properties *)

(** ** What the operations leave alone *)

Lemma lookup_path_file c y q : lookup_path (File c) (y :: q) = None.
Proof. reflexivity. Qed.

Lemma update_entry_leaf f x (e : gmap string node) :
  update_entry f x [] (Dir e)
  = match f (e !! x) with
    | Ok (Some c) => Ok (Dir (<[x := c]> e))
    | Ok None => Ok (Dir (delete x e))
    | Raise err => Raise err
    end.
Proof. reflexivity. Qed.

Lemma update_entry_below f x y rest (e : gmap string node) :
  update_entry f x (y :: rest) (Dir e)
  = match e !! x with
    | None => Raise FileNotFoundError
    | Some c =>
        match update_entry f y rest c with
        | Ok c' => Ok (Dir (<[x := c']> e))
        | Raise err => Raise err
        end
    end.
Proof. reflexivity. Qed.

Lemma makedirs_entry_leaf x (e : gmap string node) :
  makedirs_entry x [] (Dir e)
  = match e !! x with
    | Some _ => Raise FileExistsError
    | None => Ok (Dir (<[x := Dir ∅]> e))
    end.
Proof. reflexivity. Qed.

Lemma makedirs_entry_below x y rest (e : gmap string node) :
  makedirs_entry x (y :: rest) (Dir e)
  = match makedirs_entry y rest (default (Dir ∅) (e !! x)) with
    | Ok c' => Ok (Dir (<[x := c']> e))
    | Raise err => Raise err
    end.
Proof. reflexivity. Qed.

(** An update at a path changes nothing at the paths that part from it. *)
Lemma update_entry_frame f x rest n n' q :
  update_entry f x rest n = Ok n' →
  ¬ (x :: rest) `prefix_of` q → ¬ q `prefix_of` (x :: rest) →
  lookup_path n' q = lookup_path n q.
Proof.
  revert x n n' q.
  induction rest as [|z rest IH]; intros x [c|e] n' [|y q] Hu Hpq Hqp;
    try discriminate; try (by destruct Hqp; apply prefix_nil).
  - assert (y ≠ x) as Hne.
    { intros ->. apply Hpq. apply prefix_cons, prefix_nil. }
    rewrite update_entry_leaf in Hu.
    destruct (f (e !! x)) as [[c|]|]; try discriminate; injection Hu as <-;
      rewrite !lookup_path_cons.
    + by rewrite lookup_insert_ne.
    + by rewrite lookup_delete_ne.
  - rewrite update_entry_below in Hu.
    destruct (e !! x) as [c|] eqn:Hx; [|discriminate].
    destruct (update_entry f z rest c) as [c'|] eqn:Hc; [|discriminate].
    injection Hu as <-. rewrite !lookup_path_cons.
    destruct (decide (y = x)) as [->|Hne].
    + rewrite lookup_insert_eq, Hx. eapply IH; [exact Hc| |].
      * intros Hp. apply Hpq. by apply prefix_cons.
      * intros Hp. apply Hqp. by apply prefix_cons.
    + by rewrite lookup_insert_ne.
Qed.

Lemma makedirs_entry_frame x rest n n' q :
  makedirs_entry x rest n = Ok n' →
  ¬ (x :: rest) `prefix_of` q → ¬ q `prefix_of` (x :: rest) →
  lookup_path n' q = lookup_path n q.
Proof.
  revert x n n' q.
  induction rest as [|z rest IH]; intros x [c|e] n' [|y q] Hm Hpq Hqp;
    try discriminate; try (by destruct Hqp; apply prefix_nil).
  - assert (y ≠ x) as Hne.
    { intros ->. apply Hpq. apply prefix_cons, prefix_nil. }
    rewrite makedirs_entry_leaf in Hm. destruct (e !! x); [discriminate|].
    injection Hm as <-. rewrite !lookup_path_cons. by rewrite lookup_insert_ne.
  - rewrite makedirs_entry_below in Hm.
    destruct (makedirs_entry z rest _) as [c'|] eqn:Hc; [|discriminate].
    injection Hm as <-. rewrite !lookup_path_cons.
    destruct (decide (y = x)) as [->|Hne].
    + rewrite lookup_insert_eq.
      assert (Hq : lookup_path c' q = lookup_path (default (Dir ∅) (e !! x)) q).
      { eapply IH; [exact Hc| |].
        - intros Hp. apply Hpq. by apply prefix_cons.
        - intros Hp. apply Hqp. by apply prefix_cons. }
      rewrite Hq. destruct (e !! x) as [c|]; [reflexivity|]. simpl.
      destruct q as [|y' q]; [|by rewrite lookup_path_cons, lookup_empty].
      destruct Hqp. apply prefix_cons, prefix_nil.
    + by rewrite lookup_insert_ne.
Qed.

(** When the entry exists, an update fails exactly when [f] refuses it. *)
Lemma update_entry_refused f x rest n e :
  is_Some (lookup_path n (x :: rest)) →
  f (lookup_path n (x :: rest)) = Raise e →
  update_entry f x rest n = Raise e.
Proof.
  revert x n.
  induction rest as [|y rest IH]; intros x [c|m] [d Hd] Hf;
    try discriminate.
  - rewrite lookup_path_cons in Hf, Hd. rewrite update_entry_leaf.
    destruct (m !! x) as [c|]; [|discriminate].
    change (lookup_path c []) with (Some c) in Hf. by rewrite Hf.
  - rewrite lookup_path_cons in Hf, Hd. rewrite update_entry_below.
    destruct (m !! x) as [c|]; [|discriminate].
    by rewrite (IH y c (mk_is_Some _ _ Hd) Hf).
Qed.

Lemma open_w_table p w fd w1 :
  open p ModeW w = (Ok fd, w1) →
  fd = fresh_fd (open_files w)
  ∧ open_files w1
    = <[fd := {| f_path := p; f_mode := ModeW; f_pos := 0 |}]> (open_files w)
  ∧ stdout w1 = stdout w.
Proof.
  unfold open. destruct p as [|x rest]; [discriminate|].
  destruct (update_entry truncate_at x rest (fs w)); [|discriminate].
  by intros [= <- <-].
Qed.

Lemma open_w_frame p w fd w1 q :
  open p ModeW w = (Ok fd, w1) →
  ¬ p `prefix_of` q → ¬ q `prefix_of` p →
  lookup_path (fs w1) q = lookup_path (fs w) q.
Proof.
  unfold open. destruct p as [|x rest]; [discriminate|].
  destruct (update_entry truncate_at x rest (fs w)) as [n|] eqn:Hu;
    [|discriminate].
  intros [= <- <-]. simpl. by eapply update_entry_frame.
Qed.

Lemma getattr_raise v name e :
  getattr v name = Raise e → e = AttributeError name.
Proof.
  unfold getattr. destruct v; try by intros [= <-].
  destruct (assoc name attrs); [discriminate|by intros [= <-]].
Qed.

Section MoreReports.
Context `{AnalysisBase}.

(** X6: on a path that does not exist [save_visual_report] creates the
    directory with its missing ancestors and calls [_save_visual_report]
    on it, whether [clean] is set or not; the directory is empty and every
    path that parts from it holds what it held. *)
Theorem save_visual_report_creates_missing (path : path) (clean : bool)
    (st : bound) (n : node) :
  let w := p_env (b_proc st) in
  lookup_path (fs w) path = None →
  fs_makedirs path (fs w) = Ok n →
  save_visual_report path clean st
  = invoke (Call_save_visual_report path) (_save_visual_report path)
      (sys_put (set_fs n w) st)
  ∧ lookup_path n path = Some (Dir ∅)
  ∧ ∀ q, ¬ path `prefix_of` q → ¬ q `prefix_of` path →
         lookup_path n q = lookup_path (fs w) q.
Proof.
  destruct st as [a [w c]]. simpl. intros Hl Hn.
  destruct path as [|x rest]; [discriminate|]. simpl in Hn.
  split; [|split].
  - run. rewrite Hl.
    rewrite bool_decide_false by (intros [? ?]; discriminate). simpl.
    rewrite Hn. reflexivity.
  - eapply makedirs_entry_creates, Hn.
  - intros q. by eapply makedirs_entry_frame.
Qed.

(** X7: on a path that is a regular file, [save_visual_report] with
    [clean=True] raises [NotADirectoryError] and changes nothing, and with
    [clean=False] it calls [_save_visual_report] all the same, the file
    still in place. *)
Theorem save_visual_report_regular_file (path : path) (content : string)
    (st : bound) :
  lookup_path (fs (p_env (b_proc st))) path = Some (File content) →
  save_visual_report path true st = (Raise NotADirectoryError, st)
  ∧ save_visual_report path false st
    = invoke (Call_save_visual_report path) (_save_visual_report path) st.
Proof.
  destruct st as [a [w c]]. simpl. intros Hl. split.
  - destruct path as [|x rest].
    + injection Hl as Hl. run. rewrite Hl. reflexivity.
    + run. rewrite Hl. rewrite bool_decide_true by eauto. simpl.
      rewrite (update_entry_refused rmtree_at x rest (fs w) NotADirectoryError);
        [reflexivity|rewrite Hl; eauto|by rewrite Hl].
  - run. rewrite Hl. rewrite bool_decide_true by eauto. reflexivity.
Qed.

(** X8: emptying an existing directory with [clean=True] touches nothing
    outside it: when [_save_visual_report] is called, every path that
    parts from the directory's path holds what it held before. *)
Theorem save_visual_report_clean_frame (path : path)
    (entries : gmap string node) (st : bound) :
  let w := p_env (b_proc st) in
  path ≠ [] →
  lookup_path (fs w) path = Some (Dir entries) →
  ∃ n, save_visual_report path true st
       = invoke (Call_save_visual_report path) (_save_visual_report path)
           (sys_put (set_fs n w) st)
       ∧ ∀ q, ¬ path `prefix_of` q → ¬ q `prefix_of` path →
              lookup_path n q = lookup_path (fs w) q.
Proof.
  destruct st as [a [w c]]. simpl. intros Hne Hl.
  destruct (save_visual_report_emptied path entries a w c Hne Hl)
    as (n & Hn & _ & Hs).
  exists n. split; [exact Hs|].
  destruct path as [|x rest]; [done|]. simpl in Hn.
  intros q. by eapply update_entry_frame.
Qed.

(** X9: when the report file can be opened, [save_report] has changed
    nothing else by the time [_save_report] runs: every path that parts
    from the file's holds what it held, the file object is a new entry of
    the table of open files, and the serializer's configuration and the
    console are as they were. *)
Theorem save_report_frame (file_path : path) (write_console : bool)
    (st : bound) :
  let w := p_env (b_proc st) in
  is_ok (fst (open file_path ModeW w)) = true →
  ∃ file w1,
    save_report file_path write_console st
    = (let '(r, s2) :=
         invoke (Call_save_report file write_console)
           (_save_report file write_console) (sys_put w1 st) in
       (r, snd (io (close file) s2)))
    ∧ (∀ q, ¬ file_path `prefix_of` q → ¬ q `prefix_of` file_path →
            lookup_path (fs w1) q = lookup_path (fs w) q)
    ∧ open_files w !! file = None
    ∧ open_files w1
      = <[file := {| f_path := file_path; f_mode := ModeW; f_pos := 0 |}]>
          (open_files w)
    ∧ jsonpickle w1 = jsonpickle w
    ∧ stdout w1 = stdout w.
Proof.
  destruct st as [a [w c]]. simpl. intros Hok.
  destruct (open file_path ModeW w) as [[file|e] w1] eqn:Ho; [|discriminate].
  exists file, w1.
  destruct (open_w_table _ _ _ _ Ho) as (Hfd & Ht & Hout).
  destruct (open_w_truncates _ _ _ _ Ho) as (_ & _ & _ & Hj).
  split; [|split; [|split; [|split; [|split]]]].
  - unfold save_report, with_. unfold io at 1. simpl. rewrite Ho.
    reflexivity.
  - intros q. by eapply open_w_frame.
  - rewrite Hfd. apply fresh_fd_fresh.
  - exact Ht.
  - exact Hj.
  - exact Hout.
Qed.

End MoreReports.

Lemma remove_first_perm (name : string) (l : list string) :
  existsb (String.eqb name) l = true → name :: remove_first name l ≡ₚ l.
Proof.
  induction l as [|b l IH]; [discriminate|]. simpl.
  rewrite (String.eqb_sym name b).
  destruct (String.eqb_spec b name) as [->|Hne]; [done|].
  simpl. intros Hl. rewrite Permutation_swap. by rewrite (IH Hl).
Qed.

Lemma json_configured_again (j : jsonpickle_state) :
  json_configured (json_configured j) = json_configured j.
Proof.
  unfold json_configured. simpl. f_equal. by rewrite insert_insert_eq.
Qed.

Lemma open_r_fd p w fd w1 :
  open p ModeR w = (Ok fd, w1) → fd = fresh_fd (open_files w).
Proof.
  unfold open. destruct (lookup_path (fs w) p) as [[?|?]|]; try discriminate.
  by intros [= <- <-].
Qed.

Section MoreJson.
Context (encode : jsonpickle_state -> analysis -> result string).
Context (decode : jsonpickle_state -> string -> result decoded).
Context `{AnalysisBase}.

(** X1: when the [json] backend is loaded, the file can be opened, the
    instance encoded and the text written, and the helper has a [config],
    [save_json] returns and the
    instance is as before except that [config] is bound to the helper's
    [config], whatever it was bound to. *)
Theorem save_json_returns (json_file_path : path) (st : bound)
    (text : string) (c : value) :
  let w := p_env (b_proc st) in
  loaded "json" (jsonpickle w) = true →
  is_ok (fst (open json_file_path ModeW w)) = true →
  encode (json_configured (jsonpickle w)) (without_collaborators (b_self st))
  = Ok text →
  String.length text <= free w + file_size (lookup_path (fs w) json_file_path) →
  getattr (helper (b_self st)) "config" = Ok c →
  fst (save_json encode json_file_path st) = Ok tt
  ∧ b_self (snd (save_json encode json_file_path st))
    = with_config c (b_self st).
Proof.
  destruct st as [a [w calls]]. simpl. intros Hjson Hopen Henc Hfree Hcfg.
  destruct (save_json_written encode json_file_path a w calls text
              Hjson Hopen Henc Hfree) as (w' & _ & _ & Hs).
  rewrite Hs, Hcfg. split; reflexivity.
Qed.

(** X2: an instance that [__init__] has bound to a helper and an agent
    comes out of a [save_json] that gets to open, encode and write
    exactly as [__init__] left it. *)
Theorem init_then_save_json_unchanged (json_file_path : path) (st : bound)
    (h g c : value) (text : string) :
  let st1 := snd (__init__ h g st) in
  let w := p_env (b_proc st) in
  getattr h "config" = Ok c →
  loaded "json" (jsonpickle w) = true →
  is_ok (fst (open json_file_path ModeW w)) = true →
  encode (json_configured (jsonpickle w)) (without_collaborators (b_self st1))
  = Ok text →
  String.length text <= free w + file_size (lookup_path (fs w) json_file_path) →
  fst (__init__ h g st) = Ok tt
  ∧ helper (b_self st1) = h ∧ config (b_self st1) = c ∧ agent (b_self st1) = g
  ∧ fst (save_json encode json_file_path st1) = Ok tt
  ∧ b_self (snd (save_json encode json_file_path st1)) = b_self st1.
Proof.
  intros st1 w Hcfg Hjson Hopen Henc Hfree. subst st1 w.
  rewrite (init_binds h g c st Hcfg) in *. simpl in *.
  repeat (split; [reflexivity|]).
  destruct st as [a [w calls]]. simpl in *.
  destruct (save_json_written encode json_file_path _ w calls text
              Hjson Hopen Henc Hfree) as (w' & _ & _ & Hs).
  rewrite Hs. simpl. rewrite Hcfg. split; reflexivity.
Qed.

(** X3: on an instance whose helper has no [config] attribute, as when
    the helper is [None] after a reload, a [save_json] that gets to open,
    encode and write writes the file and
    then raises [AttributeError]; [agent] and [helper] are bound as
    before and [config] is left [None]. *)
Theorem save_json_unbound_helper (json_file_path : path) (st : bound)
    (text : string) :
  let w := p_env (b_proc st) in
  let a := b_self st in
  let out := save_json encode json_file_path st in
  is_ok (getattr (helper a) "config") = false →
  loaded "json" (jsonpickle w) = true →
  is_ok (fst (open json_file_path ModeW w)) = true →
  encode (json_configured (jsonpickle w)) (without_collaborators a) = Ok text →
  String.length text <= free w + file_size (lookup_path (fs w) json_file_path) →
  fst out = Raise (AttributeError "config")
  ∧ lookup_path (fs (p_env (b_proc (snd out)))) json_file_path
    = Some (File text)
  ∧ agent (b_self (snd out)) = agent a
  ∧ helper (b_self (snd out)) = helper a
  ∧ config (b_self (snd out)) = VNone.
Proof.
  destruct st as [a [w calls]]. simpl. intros Hcfg Hjson Hopen Henc Hfree.
  destruct (save_json_written encode json_file_path a w calls text
              Hjson Hopen Henc Hfree) as (w' & Hl & _ & Hs).
  rewrite Hs. destruct (getattr (helper a) "config") as [c|e] eqn:Hg;
    [discriminate|].
  apply getattr_raise in Hg as ->. by repeat split.
Qed.

(** X4: however [save_json] ends, the table of open files is afterwards
    what it was before the call. *)
Theorem save_json_leaves_no_file_open (json_file_path : path) (st : bound) :
  open_files (p_env (b_proc (snd (save_json encode json_file_path st))))
  = open_files (p_env (b_proc st)).
Proof.
  destruct st as [a [w c]]. simpl.
  pose proof (save_json_cases encode json_file_path a w c) as Hc.
  cbv zeta in Hc.
  destruct (loaded _ _); [|by rewrite Hc].
  destruct (open _ _ _) as [[fd|e] w1] eqn:Ho; [|by rewrite Hc].
  apply open_w_table in Ho as (Hfd & Ht & _). simpl in Hfd, Ht.
  assert (Hdel : delete fd (open_files w1) = open_files w).
  { rewrite Ht, Hfd. apply delete_insert_id, fresh_fd_fresh. }
  destruct (encode _ _) as [text|e]; [|by rewrite Hc].
  destruct (write fd text w1) as [[[]|e] w2] eqn:Hw;
    apply write_outcome in Hw as [_ Ho2].
  - destruct (getattr _ _); rewrite Hc; simpl; by rewrite Ho2.
  - rewrite Hc; simpl; by rewrite Ho2.
Qed.

(** X5: the file is opened, and so truncated, before the instance is
    encoded: when the [json] backend is loaded, the file can be opened and
    [encode] raises, [save_json] raises the same, the file
    is left empty and the collaborators are left [None]. *)
Theorem save_json_encode_error_truncates (json_file_path : path) (st : bound)
    (e : exn) :
  let w := p_env (b_proc st) in
  let out := save_json encode json_file_path st in
  loaded "json" (jsonpickle w) = true →
  is_ok (fst (open json_file_path ModeW w)) = true →
  encode (json_configured (jsonpickle w)) (without_collaborators (b_self st))
  = Raise e →
  fst out = Raise e
  ∧ lookup_path (fs (p_env (b_proc (snd out)))) json_file_path
    = Some (File EmptyString)
  ∧ b_self (snd out) = without_collaborators (b_self st).
Proof.
  destruct st as [a [w c]]. simpl. intros Hjson Hopen Henc.
  pose proof (save_json_cases encode json_file_path a w c) as Hc.
  cbv zeta in Hc. rewrite Hjson, open_set_jsonpickle in Hc.
  destruct (open json_file_path ModeW w) as [[fd|e'] w1] eqn:Ho;
    [|discriminate].
  apply open_w_truncates in Ho as (Hf & _ & _ & Hj).
  simpl in Hc. rewrite Henc in Hc. rewrite Hc. by repeat split.
Qed.

(** X10: a file whose text decodes to something that is not an analysis
    object makes [load_json] raise [AttributeError]; no hook is called and
    the state is as before the call. *)
Theorem load_json_plain_value (json_file_path : path) (st : process)
    (c : string) (v : value) :
  lookup_path (fs (p_env st)) json_file_path = Some (File c) →
  decode (jsonpickle (p_env st)) c = Ok (Plain v) →
  load_json decode json_file_path st
  = (Raise (AttributeError "_after_loaded_json"), st).
Proof.
  destruct st as [w calls]. simpl. intros Hl Hd.
  destruct (open_read _ _ _ Hl) as (w1 & w2 & Ho & Hr & Hc).
  unfold load_json, with_. unfold io at 1. simpl. rewrite Ho.
  unfold bind at 1. unfold io at 1. simpl. rewrite Hr.
  unfold bind at 1. simpl.
  assert (Hj : jsonpickle w2 = jsonpickle w) by (rewrite <- Hc; reflexivity).
  rewrite Hj, Hd. unfold raise, io, close, modify. simpl. by rewrite Hc.
Qed.

(** X11: however [load_json] ends, also when the hook raises, the
    descriptor it read the file through is not open afterwards. *)
Theorem load_json_closes (json_file_path : path) (st : process) :
  open_files (p_env (snd (load_json decode json_file_path st)))
    !! fresh_fd (open_files (p_env st)) = None.
Proof.
  destruct st as [w calls]. simpl.
  unfold load_json, with_. unfold io at 1. simpl.
  destruct (open json_file_path ModeR w) as [[fd|e] w1] eqn:Ho.
  - apply open_r_fd in Ho as ->.
    match goal with |- context [let '(r, s2) := ?b in _] =>
      destruct b as [r s2] end.
    simpl. apply lookup_delete_eq.
  - apply open_raise in Ho as ->. simpl. apply fresh_fd_fresh.
Qed.

(** X12: for any concrete class, [load_json] on a file that [save_json]
    has just written (the [json] backend loaded, the file opened, the
    instance encoded and the text written) decodes, under the configuration [save_json] installed,
    the very text that was encoded, calls [_after_loaded_json] once on the
    decoded object and returns that object as the hook left it.  This
    also holds when [save_json] raised for want of a helper [config]. *)
Theorem save_then_load (A a' : analysis) (st : process)
    (json_file_path : path) (text : string) :
  let w := p_env st in
  let cfg := json_configured (jsonpickle w) in
  let saved := save_json encode json_file_path {| b_self := A; b_proc := st |} in
  let w' := p_env (b_proc (snd saved)) in
  let closed x :=
    set_open_files (delete (fresh_fd (open_files w')) (open_files x)) x in
  loaded "json" (jsonpickle w) = true →
  is_ok (fst (open json_file_path ModeW w)) = true →
  encode cfg (without_collaborators A) = Ok text →
  String.length text <= free w + file_size (lookup_path (fs w) json_file_path) →
  decode cfg text = Ok (Instance_ a') →
  ∃ w2, closed w2 = w'
    ∧ let '(r, fr) := _after_loaded_json {| self := a'; env := w2 |} in
      load_json decode json_file_path (b_proc (snd saved))
      = (match r with Ok _ => Ok (self fr) | Raise e => Raise e end,
         {| p_env := closed (env fr);
            p_calls := p_calls st ++ [Call_after_loaded_json] |}).
Proof.
  destruct st as [w c]. simpl. intros Hjson Hopen Henc Hfree Hdec.
  destruct (save_json_written encode json_file_path A w c text Hjson Hopen
              Henc Hfree) as (w' & Hl & Hj & Hs).
  assert (Hsnd : b_proc (snd (save_json encode json_file_path
                    {| b_self := A; b_proc := {| p_env := w; p_calls := c |} |}))
                 = {| p_env := w'; p_calls := c |}).
  { rewrite Hs. by destruct (getattr _ _). }
  rewrite Hsnd. simpl.
  pose proof (load_json_decoded decode json_file_path
                {| p_env := w'; p_calls := c |} text a') as Hload.
  simpl in Hload. rewrite Hj in Hload. exact (Hload Hl Hdec).
Qed.

(** Without the [json] backend the configuration stays as it is. *)
Lemma save_json_jsonpickle_unloaded (json_file_path : path) (st : bound) :
  loaded "json" (jsonpickle (p_env (b_proc st))) = false →
  jsonpickle (p_env (b_proc (snd (save_json encode json_file_path st))))
  = jsonpickle (p_env (b_proc st)).
Proof.
  destruct st as [a [w c]]. simpl. intros Hjson.
  pose proof (save_json_cases encode json_file_path a w c) as Hc.
  cbv zeta in Hc. rewrite Hjson in Hc. by rewrite Hc.
Qed.

(** X13: a second [save_json] leaves the serializer's configuration as
    the first one left it; the options of the backends other than [json]
    are never touched, and the list of backends afterwards is the list
    before in another order: no backend is added and none is dropped. *)
Theorem save_json_twice_same_options (p q : path) (st : bound) :
  let once := snd (save_json encode p st) in
  let twice := snd (save_json encode q once) in
  let before := jsonpickle (p_env (b_proc st)) in
  let after := jsonpickle (p_env (b_proc once)) in
  jsonpickle (p_env (b_proc twice)) = after
  ∧ (∀ name, name ≠ "json" →
       encoder_options after !! name = encoder_options before !! name)
  ∧ backend_names after ≡ₚ backend_names before.
Proof.
  intros once twice before after. subst once twice before after.
  destruct (loaded "json" (jsonpickle (p_env (b_proc st)))) eqn:Hjson.
  - rewrite (save_json_jsonpickle encode p st Hjson).
    rewrite (save_json_jsonpickle encode q).
    + rewrite (save_json_jsonpickle encode p st Hjson).
      split; [apply json_configured_again|]. split.
      * intros name Hne. simpl. by rewrite lookup_insert_ne.
      * simpl. by apply remove_first_perm.
    + rewrite (save_json_jsonpickle encode p st Hjson). reflexivity.
  - rewrite (save_json_jsonpickle_unloaded p st Hjson).
    rewrite (save_json_jsonpickle_unloaded q).
    + rewrite (save_json_jsonpickle_unloaded p st Hjson). done.
    + by rewrite (save_json_jsonpickle_unloaded p st Hjson).
Qed.

End MoreJson.

(** ** The further properties at work on the example data *)

Lemma save_json_returns_witness :
  fst (save_json example_encode ["analysis.json"] example_bound) = Ok tt
  ∧ b_self (snd (save_json example_encode ["analysis.json"] example_bound))
    = with_config example_config rare_outcome.
Proof.
  apply (save_json_returns example_encode ["analysis.json"] example_bound
           "RareOutcome" example_config).
  - vm_compute. reflexivity.
  - vm_compute. reflexivity.
  - vm_compute. reflexivity.
  - vm_compute. lia.
  - vm_compute. reflexivity.
Defined.

Lemma init_then_save_json_unchanged_witness :
  let raw :=
    {| b_self := without_collaborators rare_outcome;
       b_proc := example_process |} in
  let st1 := snd (__init__ example_helper example_agent raw) in
  b_self st1 = rare_outcome
  ∧ fst (save_json example_encode ["analysis.json"] st1) = Ok tt
  ∧ b_self (snd (save_json example_encode ["analysis.json"] st1))
    = rare_outcome.
Proof.
  destruct (init_then_save_json_unchanged example_encode ["analysis.json"]
              {| b_self := without_collaborators rare_outcome;
                 b_proc := example_process |}
              example_helper example_agent example_config "RareOutcome")
    as (_ & _ & _ & _ & Hret & Hsame).
  - vm_compute. reflexivity.
  - vm_compute. reflexivity.
  - vm_compute. reflexivity.
  - vm_compute. reflexivity.
  - vm_compute. lia.
  - cbv zeta. split; [vm_compute; reflexivity|].
    split; [exact Hret|]. rewrite Hsame. vm_compute. reflexivity.
Defined.

Lemma save_json_unbound_helper_witness :
  let reloaded :=
    {| b_self := without_collaborators rare_outcome;
       b_proc := example_process |} in
  let out := save_json example_encode ["analysis.json"] reloaded in
  fst out = Raise (AttributeError "config")
  ∧ lookup_path (fs (p_env (b_proc (snd out)))) ["analysis.json"]
    = Some (File "RareOutcome").
Proof.
  destruct (save_json_unbound_helper example_encode ["analysis.json"]
              {| b_self := without_collaborators rare_outcome;
                 b_proc := example_process |} "RareOutcome")
    as (Hraise & Hfile & _).
  - vm_compute. reflexivity.
  - vm_compute. reflexivity.
  - vm_compute. reflexivity.
  - vm_compute. reflexivity.
  - vm_compute. lia.
  - split; [exact Hraise|exact Hfile].
Defined.

Lemma save_json_encode_error_truncates_witness :
  let out :=
    save_json (fun _ _ => Raise TypeError) ["old.json"] example_bound in
  fst out = Raise TypeError
  ∧ lookup_path (fs example_world) ["old.json"] = Some (File "{}")
  ∧ lookup_path (fs (p_env (b_proc (snd out)))) ["old.json"]
    = Some (File EmptyString).
Proof.
  destruct (save_json_encode_error_truncates (fun _ _ => Raise TypeError)
              ["old.json"] example_bound TypeError)
    as (Hraise & Hfile & _).
  - vm_compute. reflexivity.
  - vm_compute. reflexivity.
  - reflexivity.
  - split; [exact Hraise|]. split; [vm_compute; reflexivity|exact Hfile].
Defined.

Lemma save_visual_report_creates_missing_witness :
  ∃ n,
    @save_visual_report elements_analysis ["new"; "plots"] false example_bound
    = invoke (Call_save_visual_report ["new"; "plots"])
        (@_save_visual_report elements_analysis ["new"; "plots"])
        (sys_put (set_fs n example_world) example_bound)
    ∧ lookup_path n ["new"; "plots"] = Some (Dir ∅)
    ∧ lookup_path n ["out"; "stale.png"] = Some (File "old").
Proof.
  destruct (fs_makedirs ["new"; "plots"] (fs example_world)) as [n|] eqn:Hn;
    [|vm_compute in Hn; discriminate].
  exists n.
  destruct (save_visual_report_creates_missing (H:=elements_analysis)
              ["new"; "plots"] false example_bound n)
    as (Hcall & Hempty & Hframe); [vm_compute; reflexivity|exact Hn|].
  split; [exact Hcall|]. split; [exact Hempty|].
  rewrite Hframe.
  - vm_compute. reflexivity.
  - intros Hp. apply prefix_cons_inv_1 in Hp. discriminate.
  - intros Hp. apply prefix_cons_inv_1 in Hp. discriminate.
Defined.

Lemma save_visual_report_regular_file_witness :
  @save_visual_report elements_analysis ["old.json"] true example_bound
  = (Raise NotADirectoryError, example_bound)
  ∧ @save_visual_report elements_analysis ["old.json"] false example_bound
    = invoke (Call_save_visual_report ["old.json"])
        (@_save_visual_report elements_analysis ["old.json"]) example_bound.
Proof.
  apply (save_visual_report_regular_file (H:=elements_analysis) ["old.json"]
           "{}" example_bound).
  vm_compute. reflexivity.
Defined.

Lemma save_visual_report_clean_frame_witness :
  ∃ n,
    @save_visual_report elements_analysis ["out"] true example_bound
    = invoke (Call_save_visual_report ["out"])
        (@_save_visual_report elements_analysis ["out"])
        (sys_put (set_fs n example_world) example_bound)
    ∧ lookup_path n ["old.json"] = Some (File "{}").
Proof.
  destruct (save_visual_report_clean_frame (H:=elements_analysis) ["out"]
              (<["stale.png" := File "old"]> ∅) example_bound)
    as (n & Hcall & Hframe); [discriminate|vm_compute; reflexivity|].
  exists n. split; [exact Hcall|]. rewrite Hframe.
  - vm_compute. reflexivity.
  - intros Hp. apply prefix_cons_inv_1 in Hp. discriminate.
  - intros Hp. apply prefix_cons_inv_1 in Hp. discriminate.
Defined.

Lemma save_report_frame_witness :
  ∃ file w1,
    @save_report elements_analysis ["report.txt"] true example_bound
    = (let '(r, s2) :=
         invoke (Call_save_report file true)
           (@_save_report elements_analysis file true)
           (sys_put w1 example_bound) in
       (r, snd (io (close file) s2)))
    ∧ lookup_path (fs w1) ["out"; "stale.png"] = Some (File "old")
    ∧ open_files example_world !! file = None.
Proof.
  destruct (save_report_frame (H:=elements_analysis) ["report.txt"] true
              example_bound)
    as (file & w1 & Hcall & Hframe & Hnew & _); [vm_compute; reflexivity|].
  exists file, w1. split; [exact Hcall|]. split; [|exact Hnew].
  rewrite Hframe.
  - vm_compute. reflexivity.
  - intros Hp. apply prefix_cons_inv_1 in Hp. discriminate.
  - intros Hp. apply prefix_cons_inv_1 in Hp. discriminate.
Defined.

Lemma load_json_plain_value_witness :
  @load_json example_decode elements_analysis ["old.json"] example_process
  = (Raise (AttributeError "_after_loaded_json"), example_process).
Proof.
  apply (load_json_plain_value example_decode (H:=elements_analysis)
           ["old.json"] example_process "{}" VNone).
  - vm_compute. reflexivity.
  - vm_compute. reflexivity.
Defined.

Lemma save_then_load_witness :
  let saved := save_json example_encode ["analysis.json"] example_bound in
  ∃ st2,
    @load_json example_decode elements_analysis ["analysis.json"]
      (b_proc (snd saved))
    = (Ok (without_collaborators rare_outcome), st2)
    ∧ p_calls st2 = [Call_after_loaded_json].
Proof.
  destruct (save_then_load example_encode example_decode
              (H:=elements_analysis) rare_outcome
              (without_collaborators rare_outcome) example_process
              ["analysis.json"] "RareOutcome")
    as (w2 & _ & Hload).
  - vm_compute. reflexivity.
  - vm_compute. reflexivity.
  - vm_compute. reflexivity.
  - vm_compute. lia.
  - vm_compute. reflexivity.
  - cbv zeta. unfold example_bound. simpl in Hload. rewrite Hload.
    eexists. split; reflexivity.
Defined.
